(** * hpc-software-utility: dependency inventory of an environment-module tree

    A shallow embedding of [hpc-software-utility/__init__.py] and the
    properties its specification states about it.

    Python [str] values are sequences of Unicode code points; they are
    modelled as lists of [N].  Printing, [sys.exit] and uncaught exceptions
    are modelled by a small output/outcome monad.  The file system is reached
    only through [os.listdir], [os.path.isdir], [os.walk], [glob.glob] and
    [open(...).read()]; these five calls are the fields of a record. *)

From Stdlib Require Import String Ascii.
From Stdlib Require Import List NArith ZArith Bool Lia.
Import ListNotations.

(* ===================================================================== *)
(** * Part I: definitions                                                 *)
(* ===================================================================== *)

(** ** Python strings *)

Definition char := N.
Definition pystr := list char.

(** A literal: the code points of an ASCII string. *)
Definition py (s : string) : pystr := map N_of_ascii (list_ascii_of_string s).

Definition dquote : char := 34%N.   (* the double quote *)
Definition newline : char := 10%N.  (* \n *)
Definition slash : char := 47%N.    (* / *)
Definition dot : char := 46%N.      (* . *)

(** [a == b] on strings. *)
Fixpoint str_eqb (a b : pystr) : bool :=
  match a, b with
  | [], [] => true
  | x :: a', y :: b' => N.eqb x y && str_eqb a' b'
  | _, _ => false
  end.

(** [s.startswith(p)]. *)
Fixpoint startswith (s p : pystr) {struct p} : bool :=
  match p, s with
  | [], _ => true
  | x :: p', y :: s' => N.eqb x y && startswith s' p'
  | _ :: _, [] => false
  end.

(** [k in s] for two strings: [k] occurs in [s] as a contiguous run. *)
Fixpoint str_in (k s : pystr) : bool :=
  startswith s k ||
  match s with
  | [] => false
  | _ :: s' => str_in k s'
  end.

(** [x in l] for a string and a list of strings. *)
Definition list_in (x : pystr) (l : list pystr) : bool := existsb (str_eqb x) l.

(** [s.split(sep)] for a one-character separator: never empty, one more
    segment than there are separators. *)
Fixpoint split (sep : char) (s : pystr) : list pystr :=
  match s with
  | [] => [[]]
  | c :: s' =>
      if N.eqb c sep then [] :: split sep s'
      else match split sep s' with
           | seg :: segs => (c :: seg) :: segs
           | [] => [[c]]
           end
  end.

(** [sep.join(l)]. *)
Fixpoint join (sep : pystr) (l : list pystr) : pystr :=
  match l with
  | [] => []
  | [x] => x
  | x :: l' => x ++ sep ++ join sep l'
  end.

(** ** Records, groups and [Filter] *)

(** A row of the report is a list of fields (context fields, then
    [name/version], then the dependency string); [get_module_dependency]
    returns the rows of one module directory, a group. *)
Definition record := list pystr.
Definition group := list record.

(** [any(keyword in item for sublist in x for item in sublist)] *)
Definition any_item (keyword : pystr) (x : group) : bool :=
  existsb (fun item => str_in keyword item) (concat x).

(** [list(filter(lambda x: any(...), data))] *)
Definition Filter (data : list group) (keyword : pystr) : list group :=
  filter (fun x => any_item keyword x) data.

(** The dependency string of a record is its last field. *)
Definition dependency_field (r : record) : option pystr :=
  match rev r with
  | [] => None
  | d :: _ => Some d
  end.

(** [Sublist l1 l2]: [l1] is [l2] with some elements left out, the others
    in their order. *)
Inductive Sublist {A : Type} : list A -> list A -> Prop :=
| Sublist_nil : Sublist [] []
| Sublist_skip : forall x l1 l2, Sublist l1 l2 -> Sublist l1 (x :: l2)
| Sublist_keep : forall x l1 l2, Sublist l1 l2 -> Sublist (x :: l1) (x :: l2).

(** ** Outcomes: normal return, [sys.exit], uncaught exception *)

Inductive exn := NameError | TypeError | IndexError.

Inductive outcome (A : Type) : Type :=
| Ret (a : A)
| Exit (code : Z)
| Raise (e : exn).
Arguments Ret {A} a.
Arguments Exit {A} code.
Arguments Raise {A} e.

(** ** [stacked_module_path_cleanup] *)

Definition depth_is (n : nat) (mod_ : pystr) : bool :=
  Nat.eqb (length (split slash mod_)) n.

Definition stacked_module_path_cleanup (modules : list pystr) (collection : pystr)
  : outcome (list pystr) :=
  if str_eqb collection (py "MPI") then
    Ret (filter (depth_is 7) modules)
  else if str_eqb collection (py "Python") then
    Ret (filter (depth_is 6) modules)
  else if str_eqb collection (py "Compilers") then
    Ret (filter (depth_is 7) modules)
  else
    Exit 1.

(** The depth the specification fixes for each stacked layout. *)
Definition expected_depth (collection : pystr) : option nat :=
  if str_eqb collection (py "MPI") then Some 7
  else if str_eqb collection (py "Compilers") then Some 7
  else if str_eqb collection (py "Python") then Some 6
  else None.

(** ** The regular expression of [get_module_dependency]

    [re.findall(r'^\s*depends_on\(Q([^Q]+)Q\)', lua_contents, re.MULTILINE)]
    where Q stands for the double quote character.

    The pattern only uses an anchor, literal characters and greedy
    repetitions of a character class, so the matcher below is the
    backtracking matcher of [re] restricted to these forms. *)

(** [\s] in a [str] pattern: the code points for which [str.isspace()]
    holds. *)
Definition is_space (c : char) : bool :=
  ((9 <=? c) && (c <=? 13) || (28 <=? c) && (c <=? 32) ||
   (c =? 133) || (c =? 160) || (c =? 5760) ||
   (8192 <=? c) && (c <=? 8202) ||
   (c =? 8232) || (c =? 8233) || (c =? 8239) || (c =? 8287) ||
   (c =? 12288))%N.

(** The class of every character but the double quote. *)
Definition not_dquote (c : char) : bool := negb (N.eqb c dquote).

Inductive atom : Type :=
| Bol                               (* ^ under re.MULTILINE *)
| Lit (c : char)                    (* a literal character *)
| Star (cls : char -> bool)         (* cls*, greedy *)
| Group1Plus (cls : char -> bool).  (* (cls+), greedy, capture group 1 *)

Definition depends_on_re : list atom :=
  [Bol; Star is_space] ++ map Lit (py "depends_on(") ++
  [Lit dquote; Group1Plus not_dquote; Lit dquote; Lit 41%N].

(** A position in the text: the character before it ([None] at the start of
    the text) and the text from there on.  A successful match gives group 1
    and the position where it ends. *)
Definition match_end : Type := pystr * option char * pystr.

(** [^] with [re.MULTILINE]: at the start of the text and right after each
    newline. *)
Definition at_line_start (prev : option char) : bool :=
  match prev with
  | None => true
  | Some c => N.eqb c newline
  end.

(** A greedy repetition: take one more character of the class while that
    leads to a match, otherwise go on with the rest of the pattern from
    here. *)
Fixpoint greedy (cls : char -> bool)
    (k : pystr -> option char -> pystr -> option match_end)
    (taken : pystr) (prev : option char) (s : pystr) : option match_end :=
  match s with
  | c :: s' =>
      if cls c then
        match greedy cls k (taken ++ [c]) (Some c) s' with
        | Some r => Some r
        | None => k taken prev s
        end
      else k taken prev s
  | [] => k taken prev s
  end.

Fixpoint exec (p : list atom) (cap : pystr) (prev : option char) (s : pystr)
  : option match_end :=
  match p with
  | [] => Some (cap, prev, s)
  | Bol :: p' => if at_line_start prev then exec p' cap prev s else None
  | Lit c :: p' =>
      match s with
      | x :: s' => if N.eqb x c then exec p' cap (Some x) s' else None
      | [] => None
      end
  | Star cls :: p' => greedy cls (fun _ => exec p' cap) [] prev s
  | Group1Plus cls :: p' =>
      match s with
      | x :: s' => if cls x then greedy cls (exec p') [x] (Some x) s' else None
      | [] => None
      end
  end.

(** The scan of [findall]: try the pattern at the current position; after a
    match go on where it ended (one character further when it was empty),
    otherwise one character further.  No step is needed beyond the end of
    the text, so [S (length s)] steps are enough. *)
Definition advance {A} (f : option char -> pystr -> list A) (s : pystr)
  : list A :=
  match s with
  | [] => []
  | c :: s' => f (Some c) s'
  end.

Fixpoint findall_from (p : list atom) (fuel : nat) (prev : option char)
    (s : pystr) : list pystr :=
  match fuel with
  | 0 => []
  | S fuel' =>
      match exec p [] prev s with
      | Some (g, prev', s') =>
          g :: (if Nat.ltb (length s') (length s)
                then findall_from p fuel' prev' s'
                else advance (findall_from p fuel') s)
      | None => advance (findall_from p fuel') s
      end
  end.

Definition findall_at (p : list atom) (prev : option char) (s : pystr)
  : list pystr :=
  findall_from p (S (length s)) prev s.

Definition findall (p : list atom) (s : pystr) : list pystr :=
  findall_at p None s.

(** The character before the position reached after reading [w]. *)
Definition prev_after (w : pystr) (prev : option char) : option char :=
  fold_left (fun _ c => Some c) w prev.

(** ** The dependency list in the words of the specification

    The lines of the content are taken one by one; a line declares a
    dependency when, after optional leading whitespace, it reads
    [depends_on(Q<name>Q)] with [<name>] a non-empty run of characters other
    than the double quote Q. *)

Definition lines (content : pystr) : list pystr := split newline content.

(** The longest prefix in the class, and what follows it. *)
Fixpoint span (cls : char -> bool) (s : pystr) : pystr * pystr :=
  match s with
  | c :: s' =>
      if cls c then let (run, tail) := span cls s' in (c :: run, tail)
      else ([], s)
  | [] => ([], [])
  end.

Definition lstrip (s : pystr) : pystr := snd (span is_space s).

Fixpoint strip_prefix (p s : pystr) {struct p} : option pystr :=
  match p, s with
  | [], _ => Some s
  | x :: p', y :: s' => if N.eqb y x then strip_prefix p' s' else None
  | _ :: _, [] => None
  end.

Definition depends_on_open : pystr := py "depends_on(" ++ [dquote].
Definition depends_on_close : pystr := [dquote; 41%N].

Definition line_dependency (line : pystr) : option pystr :=
  match strip_prefix depends_on_open (lstrip line) with
  | Some after =>
      match span not_dquote after with
      | (c :: name, tail) =>
          if startswith tail depends_on_close then Some (c :: name) else None
      | ([], _) => None
      end
  | None => None
  end.

Definition opt_list {A} (o : option A) : list A :=
  match o with
  | Some a => [a]
  | None => []
  end.

Definition declared_dependencies (content : pystr) : list pystr :=
  flat_map (fun line => opt_list (line_dependency line)) (lines content).

(** The text [depends_on(Q<name>Q)]. *)
Definition declaration (name : pystr) : pystr :=
  depends_on_open ++ name ++ depends_on_close.

(** ** One attempt of the pattern, read left to right

    What one attempt of [depends_on_re] at a position comes to, once the
    backtracking is seen never to find anything the first try missed
    ([exec_depends_on_re] below): [decl_at] reads a declaration at the head
    of a text, [match_decl] is the whole attempt. *)
Definition decl_at (t : pystr) : option match_end :=
  match strip_prefix depends_on_open t with
  | Some after =>
      match span not_dquote after with
      | (c :: name, tail) =>
          match strip_prefix depends_on_close tail with
          | Some tail' => Some (c :: name, Some 41%N, tail')
          | None => None
          end
      | ([], _) => None
      end
  | None => None
  end.

Definition match_decl (prev : option char) (s : pystr) : option match_end :=
  if at_line_start prev then decl_at (lstrip s) else None.

(** Example contents. *)
Definition two_line_name : pystr :=
  declaration (py "a" ++ [newline] ++ py "b").

Definition shadowed_line : pystr :=
  depends_on_open ++ py "a" ++ [newline] ++ declaration (py ")foo").

Definition sample_module : pystr :=
  py "-- a module" ++ [newline] ++
  [newline] ++
  py "  " ++ declaration (py "gcc/12.2") ++ [newline] ++
  py "load(" ++ [dquote] ++ py "x" ++ [dquote] ++ py ") " ++
     declaration (py "hidden") ++ [newline] ++
  py "-- " ++ declaration (py "commented") ++ [newline] ++
  declaration (py "openmpi") ++ py " -- trailing" ++ [newline].

(** ** Output and control: the monad of the program

    A computation takes the output written so far and gives its outcome
    together with the output extended by what it wrote. *)

Inductive event : Type :=
| Print (line : pystr)
    (* print(line) *)
| PrintTable (rows : list record) (headers : list pystr).
    (* print(tabulate(rows, headers, tablefmt=simple)) *)

Definition M (A : Type) : Type := list event -> outcome A * list event.

Definition ret {A} (a : A) : M A := fun out => (Ret a, out).

Definition bind {A B} (m : M A) (f : A -> M B) : M B :=
  fun out =>
    match m out with
    | (Ret a, out') => f a out'
    | (Exit code, out') => (Exit code, out')
    | (Raise e, out') => (Raise e, out')
    end.

Notation "x <- m ;; k" := (bind m (fun x => k))
  (at level 61, m at next level, right associativity).
Notation "m ;;; k" := (bind m (fun _ => k))
  (at level 61, right associativity).

Definition lift {A} (o : outcome A) : M A := fun out => (o, out).
Definition print (line : pystr) : M unit :=
  fun out => (Ret tt, out ++ [Print line]).
Definition print_table (rows : list record) (headers : list pystr) : M unit :=
  fun out => (Ret tt, out ++ [PrintTable rows headers]).
Definition sys_exit {A} (code : Z) : M A := lift (Exit code).
Definition raise {A} (e : exn) : M A := lift (Raise e).

(** ** The file system, as the program sees it *)

Inductive listing : Type :=
| Listed (names : list pystr)
| ListError (msg : pystr).       (* OSError, with its message *)

Inductive reading : Type :=
| Content (text : pystr)
| FileNotFound                   (* open raises FileNotFoundError *)
| ReadError (msg : pystr).       (* any other exception of open or read *)

Record filesystem : Type := {
  listdir : pystr -> listing;     (* os.listdir(path) *)
  isdir : pystr -> bool;          (* os.path.isdir(path) *)
  walk : pystr -> list pystr;     (* the roots that os.walk(top) yields;
                                     os.walk skips what it cannot list *)
  glob : pystr -> list pystr;     (* glob.glob(pattern) *)
  read : pystr -> reading         (* open(file, 'r') and .read() *)
}.

(** [os.path.join] (posixpath): a component that starts with a slash
    replaces what came before it. *)
Definition endswith_slash (path : pystr) : bool :=
  match rev path with
  | c :: _ => N.eqb c slash
  | [] => false
  end.

Definition join2 (path b : pystr) : pystr :=
  if startswith b [slash] then b
  else match path with
       | [] => path ++ b
       | _ :: _ => if endswith_slash path then path ++ b
                   else path ++ [slash] ++ b
       end.

Definition os_path_join (a : pystr) (p : list pystr) : pystr :=
  fold_left join2 p a.

(** [Path(file).stem], for a file path as [glob] returns it: the last
    component, without its last suffix. *)
Fixpoint rfind (c : char) (s : pystr) : option nat :=
  match s with
  | [] => None
  | x :: s' =>
      match rfind c s' with
      | Some i => Some (S i)
      | None => if N.eqb x c then Some 0 else None
      end
  end.

Definition path_name (file : pystr) : pystr := last (split slash file) [].

Definition stem (file : pystr) : pystr :=
  let name := path_name file in
  match rfind dot name with
  | Some i =>
      if Nat.ltb 0 i && Nat.ltb i (length name - 1) then firstn i name
      else name
  | None => name
  end.

(** [list_of_strings]: the argument type of the [--collection] option. *)
Definition list_of_strings (arg : pystr) : list pystr := split 44%N arg.

(** ** [gather_collections] *)

Definition gather_collections (fs : filesystem) (directory : pystr)
  : M (option (list pystr)) :=
  match listdir fs directory with
  | Listed names =>
      ret (Some (filter
                   (fun name => isdir fs (os_path_join directory [name]) &&
                                negb (str_eqb name (py ".git")))
                   names))
  | ListError msg => print (py "Error: " ++ msg) ;;; ret None
  end.

(** ** [get_module_dependency]

    The loop over the files that match [path/*.lua].  The handler of
    [FileNotFoundError] formats a message with the name [filename], which
    is bound nowhere: evaluating it raises [NameError], and an exception
    raised inside a handler is not caught by the other handlers of the same
    [try]. *)

(** The record of one file that has been read ([pkg_ver] is first bound to
    [os.path.splitext(file)] and at once rebound to [Path(file).stem]). *)
Definition module_record (pkg_name file lua_contents : pystr) : record :=
  let pkg_ver := stem file in
  let matches := findall depends_on_re lua_contents in
  if Nat.ltb 0 (length matches)
  then [pkg_name ++ [slash] ++ pkg_ver; join (py ", ") matches]
  else [pkg_name ++ [slash] ++ pkg_ver; []].

Fixpoint module_files (fs : filesystem) (pkg_name : pystr)
    (files : list pystr) (output : group) : M group :=
  match files with
  | [] => ret output
  | file :: files' =>
      match read fs file with
      | Content lua_contents =>
          module_files fs pkg_name files'
            (output ++ [module_record pkg_name file lua_contents])
      | FileNotFound => raise NameError
      | ReadError msg =>
          print (py "An error occurred: " ++ msg) ;;;
          module_files fs pkg_name files' output
      end
  end.

Definition get_module_dependency (fs : filesystem) (path pkg_name : pystr)
  : M group :=
  module_files fs pkg_name (glob fs (os_path_join path [py "*.lua"])) [].

(** ** [get_module_names] and [stacked_get_module_names] *)

Definition get_module_names (fs : filesystem) (directory collection : pystr)
  : M (option (list pystr)) :=
  match listdir fs (os_path_join directory [collection]) with
  | Listed names =>
      ret (Some (filter
                   (fun module => isdir fs (os_path_join directory [collection]))
                   names))
  | ListError msg => print (py "Error: " ++ msg) ;;; ret None
  end.

(** The handler of [OSError] in [stacked_get_module_names] is never entered:
    [os.walk], called without [onerror], passes over what it cannot list. *)
Definition stacked_get_module_names (fs : filesystem)
    (directory collection : pystr) : list pystr :=
  walk fs (os_path_join directory [collection]).

(** ** Reporting one collection *)

Definition report (collection : pystr) (headers : list pystr)
    (filter_ : bool) (keyword : pystr) (output : list group) : M unit :=
  let output := if filter_ then Filter output keyword else output in
  if Nat.ltb 0 (length output) then
    print [newline] ;;;
    print_table (concat output) headers
  else
    print (py "0 softwares found for " ++ collection).

(** ** [stacked_case] *)

(** [l[i]] *)
Definition index (l : list pystr) (i : nat) : outcome pystr :=
  match nth_error l i with
  | Some x => Ret x
  | None => Raise IndexError
  end.

(** [l[i:j:1]] *)
Definition slice (l : list pystr) (i j : nat) : list pystr :=
  firstn (j - i) (skipn i l).

(** The context fields and the package name read off the segments of a
    path, for each of the three layouts. *)
Definition decoder : Type := list pystr -> M (list pystr * pystr).

Definition decode_mpi : decoder := fun _pkg_name =>
  _mpi <- lift (index _pkg_name 4) ;;
  _compiler <- lift (index _pkg_name 5) ;;
  name <- lift (index _pkg_name 6) ;;
  ret ([_mpi; _compiler], name).

Definition decode_python : decoder := fun _pkg_name =>
  let _python_ver := join [slash] (slice _pkg_name 3 5) in
  name <- lift (index _pkg_name 5) ;;
  ret ([_python_ver], name).

Definition decode_compilers : decoder := fun _pkg_name =>
  let _compiler_ver := join [slash] (slice _pkg_name 4 6) in
  name <- lift (index _pkg_name 6) ;;
  ret ([_compiler_ver], name).

(** The loop over the paths kept by [stacked_module_path_cleanup]: a module
    directory without any record adds nothing to [output]. *)
Fixpoint stacked_modules (fs : filesystem) (directory collection : pystr)
    (decode : decoder) (modules : list pystr) (output : list group)
  : M (list group) :=
  match modules with
  | [] => ret output
  | module :: modules' =>
      let path := os_path_join directory [collection; module] in
      ctx <- decode (split slash module) ;;
      _y <- get_module_dependency fs path (snd ctx) ;;
      if Nat.ltb 0 (length _y)
      then stacked_modules fs directory collection decode modules'
             (output ++ [map (fun item => fst ctx ++ item) _y])
      else stacked_modules fs directory collection decode modules' output
  end.

Definition stacked_case (fs : filesystem) (directory collection : pystr)
    (filter_ : bool) (keyword : pystr) : M unit :=
  let _x := stacked_get_module_names fs directory collection in
  if Nat.ltb 0 (length _x) then
    modules <- lift (stacked_module_path_cleanup _x collection) ;;
    if str_eqb collection (py "MPI") then
      output <- stacked_modules fs directory collection decode_mpi modules [] ;;
      report collection
        [py "MPI Ver."; py "Compiler"; collection ++ py " Packages";
         py "Dependency"]
        filter_ keyword output
    else if str_eqb collection (py "Python") then
      output <- stacked_modules fs directory collection decode_python modules [] ;;
      report collection
        [py "Python Version"; collection ++ py " Packages"; py "Dependency"]
        filter_ keyword output
    else if str_eqb collection (py "Compilers") then
      output <- stacked_modules fs directory collection decode_compilers modules [] ;;
      report collection
        [py "Compiler Version"; collection ++ py " Packages"; py "Dependency"]
        filter_ keyword output
    else ret tt
  else ret tt.

(** ** [main] *)

(** The loop of a flat collection: every module name adds its group, empty
    or not ([get_module_dependency] never returns [None]). *)
Fixpoint flat_modules (fs : filesystem) (directory collection : pystr)
    (modules : list pystr) (output : list group) : M (list group) :=
  match modules with
  | [] => ret output
  | module :: modules' =>
      let path := os_path_join directory [collection; module] in
      _y <- get_module_dependency fs path module ;;
      flat_modules fs directory collection modules' (output ++ [_y])
  end.

Definition is_stacked (collection : pystr) : bool :=
  list_in collection [py "Python"; py "MPI"; py "Compilers"].

(** The body of the loop over the collections. *)
Definition main_collection (fs : filesystem) (directory : pystr)
    (filter_ : bool) (keyword : pystr) (collection : pystr) : M unit :=
  if negb (is_stacked collection) then
    _x <- get_module_names fs directory collection ;;
    match _x with
    | None => raise TypeError          (* len(None) *)
    | Some modules =>
        if Nat.ltb 0 (length modules) then
          output <- flat_modules fs directory collection modules [] ;;
          report collection [collection ++ py " Packages"; py "Dependency"]
            filter_ keyword output
        else ret tt
    end
  else if filter_ then stacked_case fs directory collection filter_ keyword
  else stacked_case fs directory collection false [].

Fixpoint for_each {A} (l : list A) (body : A -> M unit) : M unit :=
  match l with
  | [] => ret tt
  | x :: l' => body x ;;; for_each l' body
  end.

(** [main], from the parsed arguments on: [--dir], [--collection] ([None]
    when the option is not given) and [--filter]. *)
Definition main (fs : filesystem) (directory : pystr)
    (args_collection : option (list pystr)) (keyword : pystr) : M unit :=
  gathered <- gather_collections fs directory ;;
  match gathered with
  | None => raise TypeError            (* iterating over None *)
  | Some names =>
      let collections :=
        filter (fun col => negb (str_eqb col (py "Collections"))) names in
      let filter_ := Nat.ltb 0 (length keyword) in
      collections <-
        match args_collection with
        | Some requested =>
            if forallb (fun x => list_in x collections) requested
            then ret requested
            else print (py "Invalid Collection Name") ;;; sys_exit 1
        | None => ret collections
        end ;;
      for_each collections (main_collection fs directory filter_ keyword)
  end.

(** ** The scan of a collection

    What [main] and [stacked_case] do for one collection up to the point
    where they filter and report: [None] when the enumeration of the
    collection is empty (nothing is reported then), otherwise the groups
    gathered in [output]. *)

Definition decoder_of (collection : pystr) : decoder :=
  if str_eqb collection (py "MPI") then decode_mpi
  else if str_eqb collection (py "Python") then decode_python
  else decode_compilers.

Definition scan (fs : filesystem) (directory collection : pystr)
  : M (option (list group)) :=
  if is_stacked collection then
    let _x := stacked_get_module_names fs directory collection in
    if Nat.ltb 0 (length _x) then
      modules <- lift (stacked_module_path_cleanup _x collection) ;;
      output <- stacked_modules fs directory collection
                  (decoder_of collection) modules [] ;;
      ret (Some output)
    else ret None
  else
    _x <- get_module_names fs directory collection ;;
    match _x with
    | None => raise TypeError
    | Some modules =>
        if Nat.ltb 0 (length modules) then
          output <- flat_modules fs directory collection modules [] ;;
          ret (Some output)
        else ret None
    end.

(** The header row that goes with a collection. *)
Definition headers_of (collection : pystr) : list pystr :=
  if str_eqb collection (py "MPI") then
    [py "MPI Ver."; py "Compiler"; collection ++ py " Packages"; py "Dependency"]
  else if str_eqb collection (py "Python") then
    [py "Python Version"; collection ++ py " Packages"; py "Dependency"]
  else if str_eqb collection (py "Compilers") then
    [py "Compiler Version"; collection ++ py " Packages"; py "Dependency"]
  else
    [collection ++ py " Packages"; py "Dependency"].

(** ** Example file systems

    A tree is given by its directories, each with the names it contains
    (parents before children, as [os.walk] visits them), and by what reading
    each file gives; a name without an entry among the files is a dangling
    symbolic link. *)

Fixpoint lookup {A} (table : list (pystr * A)) (k : pystr) : option A :=
  match table with
  | [] => None
  | (k', v) :: table' => if str_eqb k k' then Some v else lookup table' k
  end.

Definition endswith (s suffix : pystr) : bool :=
  startswith (rev s) (rev suffix).

Definition strip_suffix (suffix s : pystr) : option pystr :=
  option_map (@rev char) (strip_prefix (rev suffix) (rev s)).

Record tree : Type := {
  tree_dirs : list (pystr * list pystr);
  tree_files : list (pystr * reading)
}.

Definition tree_fs (t : tree) : filesystem := {|
  listdir path :=
    match lookup (tree_dirs t) path with
    | Some names => Listed names
    | None => ListError (py "[Errno 2] No such file or directory")
    end;
  isdir path :=
    match lookup (tree_dirs t) path with
    | Some _ => true
    | None => false
    end;
  walk top :=
    filter (fun d => str_eqb d top || startswith d (top ++ [slash]))
           (map fst (tree_dirs t));
  glob pattern :=
    match strip_suffix (py "/*.lua") pattern with
    | Some dir =>
        match lookup (tree_dirs t) dir with
        | Some names =>
            map (fun n => dir ++ [slash] ++ n)
                (filter (fun n => endswith n (py ".lua") &&
                                  negb (startswith n [dot])) names)
        | None => []
        end
    | None => []
    end;
  read file :=
    match lookup (tree_files t) file with
    | Some r => r
    | None => FileNotFound
    end
|}.

(** One MPI module, [hdf5/1.12] under [ofed/gcc], that depends on [zlib]. *)
Definition fs_mpi : filesystem := tree_fs {|
  tree_dirs := [ (py "/sw/modules", [py "MPI"]);
                 (py "/sw/modules/MPI", [py "ofed"]);
                 (py "/sw/modules/MPI/ofed", [py "gcc"]);
                 (py "/sw/modules/MPI/ofed/gcc", [py "hdf5"]);
                 (py "/sw/modules/MPI/ofed/gcc/hdf5", [py "1.12.lua"]) ];
  tree_files := [ (py "/sw/modules/MPI/ofed/gcc/hdf5/1.12.lua",
                   Content (declaration (py "zlib") ++ [newline])) ]
|}.

(** One MPI module, [fftw/3.3] under [openmpi/gcc], without dependency. *)
Definition fs_openmpi : filesystem := tree_fs {|
  tree_dirs := [ (py "/sw/modules", [py "MPI"]);
                 (py "/sw/modules/MPI", [py "openmpi"]);
                 (py "/sw/modules/MPI/openmpi", [py "gcc"]);
                 (py "/sw/modules/MPI/openmpi/gcc", [py "fftw"]);
                 (py "/sw/modules/MPI/openmpi/gcc/fftw", [py "3.3.lua"]) ];
  tree_files := [ (py "/sw/modules/MPI/openmpi/gcc/fftw/3.3.lua",
                   Content (py "-- no dependency" ++ [newline])) ]
|}.

(** A flat collection [Apps] with a plain file [README] next to the module
    directories [gcc] (one module file) and [docs] (none). *)
Definition fs_apps : filesystem := tree_fs {|
  tree_dirs := [ (py "/sw/modules", [py "Apps"]);
                 (py "/sw/modules/Apps", [py "README"; py "gcc"; py "docs"]);
                 (py "/sw/modules/Apps/gcc", [py "12.2.lua"]);
                 (py "/sw/modules/Apps/docs", []) ];
  tree_files := [ (py "/sw/modules/Apps/README", Content (py "read me"));
                  (py "/sw/modules/Apps/gcc/12.2.lua",
                   Content (declaration (py "binutils") ++ [newline])) ]
|}.

(** A flat collection [Apps] whose module [gcc] has a module file
    [12.2.lua] that is a dangling symbolic link, and a good one. *)
Definition fs_dangling : filesystem := tree_fs {|
  tree_dirs := [ (py "/sw/modules", [py "Apps"]);
                 (py "/sw/modules/Apps", [py "gcc"]);
                 (py "/sw/modules/Apps/gcc", [py "12.2.lua"; py "13.1.lua"]) ];
  tree_files := [ (py "/sw/modules/Apps/gcc/13.1.lua",
                   Content (declaration (py "binutils") ++ [newline])) ]
|}.

(** A flat collection [Apps] whose only module directory, [docs], holds
    no module file. *)
Definition fs_docs : filesystem := tree_fs {|
  tree_dirs := [ (py "/sw/modules", [py "Apps"]);
                 (py "/sw/modules/Apps", [py "docs"]);
                 (py "/sw/modules/Apps/docs", []) ];
  tree_files := []
|}.

(** A flat collection [Apps] whose module [gcc] has three module files, the
    second of which cannot be read. *)
Definition fs_unreadable : filesystem := tree_fs {|
  tree_dirs := [ (py "/sw/modules", [py "Apps"]);
                 (py "/sw/modules/Apps", [py "gcc"]);
                 (py "/sw/modules/Apps/gcc",
                  [py "11.4.lua"; py "12.2.lua"; py "13.1.lua"]) ];
  tree_files := [ (py "/sw/modules/Apps/gcc/11.4.lua",
                   Content (py "-- no dependency" ++ [newline]));
                  (py "/sw/modules/Apps/gcc/12.2.lua",
                   ReadError (py "[Errno 13] Permission denied"));
                  (py "/sw/modules/Apps/gcc/13.1.lua",
                   Content (declaration (py "binutils") ++ [newline])) ]
|}.

(** Concrete data used in the examples below. *)
Definition openmpi_group : group := [[py "openmpi/4.1.6"; []]].

(** ** Shapes of the tables the program writes *)

(** Every row of a table has as many fields as the header row. *)
Definition table_rows_fit (e : event) : Prop :=
  match e with
  | Print _ => True
  | PrintTable rows headers => forall r, In r rows -> length r = length headers
  end.

(** A table shows the keyword in some field of some row. *)
Definition table_has_hit (keyword : pystr) (e : event) : Prop :=
  match e with
  | Print _ => True
  | PrintTable rows _ =>
      exists r item, In r rows /\ In item r /\ str_in keyword item = true
  end.

(** What a computation may add to the output while it scans: lines only. *)
Definition only_lines (out out' : list event) : Prop :=
  exists lines_, out' = out ++ map Print lines_.

(** Some file that [glob] returns is missing when it is opened. *)
Definition missing_file (fs : filesystem) : Prop :=
  exists pattern file,
    In file (glob fs pattern) /\ read fs file = FileNotFound.

(** The root, or a collection directory below it, cannot be listed. *)
Definition unlistable (fs : filesystem) (directory : pystr) : Prop :=
  (exists msg, listdir fs directory = ListError msg) \/
  (exists collection msg,
     isdir fs (os_path_join directory [collection]) = true /\
     listdir fs (os_path_join directory [collection]) = ListError msg).

(** ** More example file systems *)

(** Every module file of the tree, as [glob] finds them, can be opened (it
    may still fail to be read). *)
Definition tree_complete (t : tree) : bool :=
  forallb
    (fun entry : pystr * list pystr =>
       forallb
         (fun n => match lookup (tree_files t) (fst entry ++ [slash] ++ n) with
                   | Some (Content _) | Some (ReadError _) => true
                   | Some FileNotFound | None => false
                   end)
         (filter (fun n => endswith n (py ".lua") && negb (startswith n [dot]))
                 (snd entry)))
    (tree_dirs t).

Definition tree_unreadable : tree := {|
  tree_dirs := [ (py "/sw/modules", [py "Apps"]);
                 (py "/sw/modules/Apps", [py "gcc"]);
                 (py "/sw/modules/Apps/gcc",
                  [py "11.4.lua"; py "12.2.lua"; py "13.1.lua"]) ];
  tree_files := [ (py "/sw/modules/Apps/gcc/11.4.lua",
                   Content (py "-- no dependency" ++ [newline]));
                  (py "/sw/modules/Apps/gcc/12.2.lua",
                   ReadError (py "[Errno 13] Permission denied"));
                  (py "/sw/modules/Apps/gcc/13.1.lua",
                   Content (declaration (py "binutils") ++ [newline])) ]
|}.

(** The MPI module of [fs_mpi] under a root with seven segments. *)
Definition fs_deep : filesystem := tree_fs {|
  tree_dirs :=
    [ (py "/opt/apps/lmod/site/modulefiles/v1", [py "MPI"]);
      (py "/opt/apps/lmod/site/modulefiles/v1/MPI", [py "ofed"]);
      (py "/opt/apps/lmod/site/modulefiles/v1/MPI/ofed", [py "gcc"]);
      (py "/opt/apps/lmod/site/modulefiles/v1/MPI/ofed/gcc", [py "hdf5"]);
      (py "/opt/apps/lmod/site/modulefiles/v1/MPI/ofed/gcc/hdf5",
       [py "1.12.lua"]) ];
  tree_files :=
    [ (py "/opt/apps/lmod/site/modulefiles/v1/MPI/ofed/gcc/hdf5/1.12.lua",
       Content (declaration (py "zlib") ++ [newline])) ]
|}.

(** A root with the directories [Collections], [.git] and [Apps]. *)
Definition fs_reserved : filesystem := tree_fs {|
  tree_dirs := [ (py "/sw/modules", [py "Collections"; py ".git"; py "Apps"]);
                 (py "/sw/modules/Collections", []);
                 (py "/sw/modules/.git", []);
                 (py "/sw/modules/Apps", [py "gcc"]);
                 (py "/sw/modules/Apps/gcc", [py "12.2.lua"]) ];
  tree_files := [ (py "/sw/modules/Apps/gcc/12.2.lua",
                   Content (declaration (py "binutils") ++ [newline])) ]
|}.

(** A root whose collections [Apps] and [Tools] are directories that may
    not be listed. *)
Definition fs_locked : filesystem := {|
  listdir path :=
    if str_eqb path (py "/sw/modules") then Listed [py "Apps"; py "Tools"]
    else ListError (py "[Errno 13] Permission denied");
  isdir path :=
    list_in path [py "/sw/modules"; py "/sw/modules/Apps";
                  py "/sw/modules/Tools"];
  walk top := [];
  glob pattern := [];
  read file := FileNotFound
|}.

(** A machine without the root directory: every listing fails with the
    message of [FileNotFoundError]. *)
Definition fs_noroot : filesystem := {|
  listdir path :=
    ListError (py "[Errno 2] No such file or directory: '" ++ path ++ py "'");
  isdir path := false;
  walk top := [];
  glob pattern := [];
  read file := FileNotFound
|}.

(* ===================================================================== *)
(** * Part II: properties                                                 *)
(* ===================================================================== *)

(** ** Strings *)

Lemma str_eqb_eq (a b : pystr) : str_eqb a b = true <-> a = b.
Proof.
  revert b; induction a as [|x a IH]; intros [|y b]; simpl; split;
    try congruence; try reflexivity.
  - intros H. apply andb_true_iff in H as [Hx Hab].
    apply N.eqb_eq in Hx. apply IH in Hab. congruence.
  - intros H. injection H as -> ->.
    rewrite N.eqb_refl. simpl. now apply IH.
Qed.

Lemma str_eqb_refl (a : pystr) : str_eqb a a = true.
Proof. now apply str_eqb_eq. Qed.

Lemma str_eqb_neq (a b : pystr) : str_eqb a b = false <-> a <> b.
Proof.
  rewrite <- str_eqb_eq. destruct (str_eqb a b); split; congruence.
Qed.

Lemma startswith_spec (s p : pystr) :
  startswith s p = true <-> exists post, s = p ++ post.
Proof.
  revert s; induction p as [|x p IH]; intros s; simpl.
  - split; [intros _; now exists s | reflexivity].
  - destruct s as [|y s].
    + split; [discriminate | intros [post H]; discriminate].
    + rewrite andb_true_iff, N.eqb_eq, IH. split.
      * intros [-> [post ->]]. now exists post.
      * intros [post H]. injection H as -> ->. split; [reflexivity | now exists post].
Qed.

Lemma str_in_spec (k s : pystr) :
  str_in k s = true <-> exists pre post, s = pre ++ k ++ post.
Proof.
  induction s as [|c s IH].
  - simpl. rewrite orb_false_r, startswith_spec. split.
    + intros [post H]. now exists [], post.
    + intros [pre [post H]]. destruct pre; simpl in H.
      * now exists post.
      * discriminate.
  - cbn [str_in]. rewrite orb_true_iff, startswith_spec, IH. split.
    + intros [[post H] | [pre [post H]]].
      * now exists [], post.
      * exists (c :: pre), post. simpl. now f_equal.
    + intros [pre [post H]]. destruct pre as [|c' pre]; simpl in H.
      * left. now exists post.
      * right. injection H as _ ->. now exists pre, post.
Qed.

Lemma str_in_empty (s : pystr) : str_in [] s = true.
Proof. destruct s; reflexivity. Qed.

(** ** [Filter] *)

Lemma any_item_spec (keyword : pystr) (x : group) :
  any_item keyword x = true <->
  exists r item, In r x /\ In item r /\ str_in keyword item = true.
Proof.
  unfold any_item. rewrite existsb_exists. split.
  - intros [item [Hin Hk]]. apply in_concat in Hin as [r [Hr Hi]].
    now exists r, item.
  - intros [r [item [Hr [Hi Hk]]]]. exists item. split; [|exact Hk].
    apply in_concat. now exists r.
Qed.

Lemma filter_Sublist {A : Type} (f : A -> bool) (l : list A) :
  Sublist (filter f l) l.
Proof.
  induction l as [|x l IH]; simpl; [constructor|].
  destruct (f x); now constructor.
Qed.

Lemma Filter_Sublist (data : list group) (keyword : pystr) :
  Sublist (Filter data keyword) data.
Proof. apply filter_Sublist. Qed.

Lemma Sublist_In {A : Type} (l1 l2 : list A) :
  Sublist l1 l2 -> forall x, In x l1 -> In x l2.
Proof.
  induction 1; simpl; intros y Hy; auto.
  destruct Hy; auto.
Qed.

Lemma Filter_In (data : list group) (keyword : pystr) (g : group) :
  In g (Filter data keyword) <-> In g data /\ any_item keyword g = true.
Proof. unfold Filter. apply filter_In. Qed.

(** C3, as the specification words it, fails: the group of a module named
    [openmpi/4.1.6] with no dependency at all is retained for the keyword
    [mpi], although no dependency string in it contains [mpi]. *)
Lemma Filter_dependency_field_only_counterexample :
  In openmpi_group (Filter [openmpi_group] (py "mpi")) /\
  ~ (exists r d, In r openmpi_group /\ dependency_field r = Some d /\
                 str_in (py "mpi") d = true).
Proof.
  split.
  - vm_compute. now left.
  - intros [r [d [Hr [Hd Hk]]]]. destruct Hr as [<- | []].
    vm_compute in Hd. injection Hd as <-. vm_compute in Hk. discriminate.
Qed.

(** C3 (amended): [Filter] retains exactly the groups in which some field,
    whichever it is (context field, package identity or dependency string),
    of some record contains the keyword as a contiguous, case-sensitive
    substring. *)
Theorem Filter_retains_iff_some_field_contains
    (data : list group) (keyword : pystr) (g : group) :
  In g (Filter data keyword) <->
  In g data /\
  exists r item, In r g /\ In item r /\
                 exists pre post, item = pre ++ keyword ++ post.
Proof.
  rewrite Filter_In, any_item_spec. split.
  - intros [Hg [r [item [Hr [Hi Hk]]]]]. split; [exact Hg|].
    exists r, item. repeat split; trivial. now apply str_in_spec.
  - intros [Hg [r [item [Hr [Hi Hk]]]]]. split; [exact Hg|].
    exists r, item. repeat split; trivial. now apply str_in_spec.
Qed.

(** C9: filtering an already filtered list with the same keyword changes
    nothing. *)
Theorem Filter_idempotent (data : list group) (keyword : pystr) :
  Filter (Filter data keyword) keyword = Filter data keyword.
Proof.
  unfold Filter. induction data as [|x data IH]; simpl; [reflexivity|].
  destruct (any_item keyword x) eqn:Hx; simpl.
  - rewrite Hx. now f_equal.
  - exact IH.
Qed.

(** C10: [Filter] only selects: its result is the input with some groups
    left out, the others unchanged and in their order; a group without
    records is never kept, whatever the keyword (the empty one included). *)
Theorem Filter_pure_selection (data : list group) (keyword : pystr) :
  Sublist (Filter data keyword) data /\
  (forall g, In g (Filter data keyword) -> In g data) /\
  ~ In [] (Filter data keyword) /\
  ~ In [] (Filter data []).
Proof.
  split; [apply Filter_Sublist|]. split.
  - intros g Hg. now apply Filter_In in Hg.
  - split; intros H; apply Filter_In in H as [_ H]; discriminate.
Qed.

(** ** [stacked_module_path_cleanup] *)

(** The segment count of a path is one more than its number of slashes. *)
Lemma length_split (sep : char) (s : pystr) :
  length (split sep s) = S (count_occ N.eq_dec s sep).
Proof.
  induction s as [|c s IH]; simpl; [reflexivity|].
  destruct (N.eqb_spec c sep) as [->|Hne].
  - simpl. destruct (N.eq_dec sep sep); [now rewrite IH | contradiction].
  - destruct (N.eq_dec c sep); [contradiction|].
    destruct (split sep s); simpl in *; lia.
Qed.

Lemma depth_is_spec (n : nat) (mod_ : pystr) :
  depth_is n mod_ = true <-> length (split slash mod_) = n.
Proof. unfold depth_is. apply Nat.eqb_eq. Qed.

(** C2: for a stacked collection, a path is kept exactly when it is one of
    the given paths and its number of segments is the depth of the layout
    (7 for MPI and Compilers, 6 for Python); every other path is dropped. *)
Theorem cleanup_accepts_iff_expected_depth
    (modules : list pystr) (collection : pystr) (depth : nat) :
  expected_depth collection = Some depth ->
  (collection = py "MPI" /\ depth = 7 \/
   collection = py "Compilers" /\ depth = 7 \/
   collection = py "Python" /\ depth = 6) /\
  exists kept,
    stacked_module_path_cleanup modules collection = Ret kept /\
    Sublist kept modules /\
    forall mod_, In mod_ kept <->
                 In mod_ modules /\ length (split slash mod_) = depth.
Proof.
  unfold expected_depth, stacked_module_path_cleanup.
  destruct (str_eqb collection (py "MPI")) eqn:Hm.
  { intros [= <-]. apply str_eqb_eq in Hm. split; [now left|].
    eexists. split; [reflexivity|]. split; [apply filter_Sublist|].
    intros m. now rewrite filter_In, depth_is_spec. }
  destruct (str_eqb collection (py "Compilers")) eqn:Hc.
  { intros [= <-]. apply str_eqb_eq in Hc. split; [right; now left|].
    subst collection. simpl.
    eexists. split; [reflexivity|]. split; [apply filter_Sublist|].
    intros m. now rewrite filter_In, depth_is_spec. }
  destruct (str_eqb collection (py "Python")) eqn:Hp; [|discriminate].
  intros [= <-]. apply str_eqb_eq in Hp. split; [right; now right|].
  eexists. split; [reflexivity|]. split; [apply filter_Sublist|].
  intros m. now rewrite filter_In, depth_is_spec.
Qed.

Lemma cleanup_accepts_iff_expected_depth_witness :
  expected_depth (py "Python") = Some 6 /\
  stacked_module_path_cleanup
    [py "/sw/modules/Python/3.10"; py "/sw/modules/Python/3.10/numpy";
     py "/sw/modules/Python/3.10/numpy/1.26"] (py "Python") =
    Ret [py "/sw/modules/Python/3.10/numpy"] /\
  exists kept,
    stacked_module_path_cleanup
      [py "/sw/modules/Python/3.10"; py "/sw/modules/Python/3.10/numpy";
       py "/sw/modules/Python/3.10/numpy/1.26"] (py "Python") = Ret kept /\
    forall mod_, In mod_ kept <->
      In mod_ [py "/sw/modules/Python/3.10"; py "/sw/modules/Python/3.10/numpy";
               py "/sw/modules/Python/3.10/numpy/1.26"] /\
      length (split slash mod_) = 6.
Proof.
  split; [reflexivity|]. split; [reflexivity|].
  destruct (cleanup_accepts_iff_expected_depth
              [py "/sw/modules/Python/3.10"; py "/sw/modules/Python/3.10/numpy";
               py "/sw/modules/Python/3.10/numpy/1.26"] (py "Python") 6
              eq_refl) as [_ [kept [Hk [_ Hiff]]]].
  exists kept. split; assumption.
Defined.

Lemma cleanup_known_kind (modules : list pystr) (collection : pystr) :
  collection = py "MPI" \/ collection = py "Python" \/
  collection = py "Compilers" ->
  exists depth,
    expected_depth collection = Some depth /\
    stacked_module_path_cleanup modules collection =
      Ret (filter (depth_is depth) modules).
Proof.
  intros [-> | [-> | ->]]; [exists 7 | exists 6 | exists 7]; split; reflexivity.
Qed.

(** C8: a collection name outside MPI, Python and Compilers makes
    [stacked_module_path_cleanup] leave through [sys.exit(1)], a non-zero
    status.  For the three known names it returns normally, whatever the
    paths: the paths of the expected depth are kept, in their order, and
    each path of another depth is left out of the result, without any
    error. *)
Theorem cleanup_unknown_kind_is_fatal
    (modules : list pystr) (collection : pystr) :
  (collection <> py "MPI" -> collection <> py "Python" ->
   collection <> py "Compilers" ->
   exists code, stacked_module_path_cleanup modules collection = Exit code /\
                code <> 0%Z) /\
  (collection = py "MPI" \/ collection = py "Python" \/
   collection = py "Compilers" ->
   exists depth kept,
     expected_depth collection = Some depth /\
     stacked_module_path_cleanup modules collection = Ret kept /\
     Sublist kept modules /\
     (forall mod_, In mod_ modules ->
                   length (split slash mod_) = depth -> In mod_ kept) /\
     (forall mod_, length (split slash mod_) <> depth -> ~ In mod_ kept)).
Proof.
  split.
  - unfold stacked_module_path_cleanup. intros Hm Hp Hc.
    apply str_eqb_neq in Hm, Hp, Hc. rewrite Hm, Hp, Hc.
    exists 1%Z. split; [reflexivity | discriminate].
  - intros Hknown.
    destruct (cleanup_known_kind modules collection Hknown)
      as [depth [Hd Hclean]].
    exists depth, (filter (depth_is depth) modules).
    split; [exact Hd|]. split; [exact Hclean|].
    split; [apply filter_Sublist|]. split.
    + intros m Hin Hlen. apply filter_In. split; [exact Hin|].
      now apply depth_is_spec.
    + intros m Hlen Hin. apply filter_In in Hin as [_ Hin].
      now apply depth_is_spec in Hin.
Qed.

Lemma cleanup_unknown_kind_is_fatal_witness :
  (exists code,
     stacked_module_path_cleanup [py "/sw/modules/Bogus/a"] (py "Bogus")
       = Exit code /\ code <> 0%Z) /\
  (exists kept,
     stacked_module_path_cleanup
       [py "/sw/modules/MPI/ofed"; py "/sw/modules/MPI/ofed/gcc/hdf5";
        py "/sw/modules/MPI/ofed/gcc/hdf5/extra"] (py "MPI") = Ret kept /\
     In (py "/sw/modules/MPI/ofed/gcc/hdf5") kept /\
     ~ In (py "/sw/modules/MPI/ofed") kept /\
     ~ In (py "/sw/modules/MPI/ofed/gcc/hdf5/extra") kept).
Proof.
  split.
  - apply (proj1 (cleanup_unknown_kind_is_fatal [py "/sw/modules/Bogus/a"] (py "Bogus")));
      intros H; vm_compute in H; discriminate.
  - destruct (proj2 (cleanup_unknown_kind_is_fatal
                       [py "/sw/modules/MPI/ofed"; py "/sw/modules/MPI/ofed/gcc/hdf5";
                        py "/sw/modules/MPI/ofed/gcc/hdf5/extra"] (py "MPI"))
                (or_introl eq_refl))
      as [depth [kept [Hd [Hk [_ [Hin Hout]]]]]].
    injection Hd as <-.
    exists kept. split; [exact Hk|]. split; [|split].
    + apply Hin; [right; now left | reflexivity].
    + apply Hout. vm_compute. lia.
    + apply Hout. vm_compute. lia.
Defined.

(** ** The matcher *)

Lemma span_fst_snd (cls : char -> bool) (s : pystr) :
  s = fst (span cls s) ++ snd (span cls s).
Proof.
  induction s as [|c s IH]; simpl; [reflexivity|].
  destruct (cls c); [|reflexivity].
  destruct (span cls s) as [run tail]; simpl in *. now f_equal.
Qed.

Lemma span_fst_forallb (cls : char -> bool) (s : pystr) :
  forallb cls (fst (span cls s)) = true.
Proof.
  induction s as [|c s IH]; simpl; [reflexivity|].
  destruct (cls c) eqn:Hc; [|reflexivity].
  destruct (span cls s) as [run tail]; simpl in *. now rewrite Hc.
Qed.

Lemma span_snd_head (cls : char -> bool) (s : pystr) (c : char) (t : pystr) :
  snd (span cls s) = c :: t -> cls c = false.
Proof.
  induction s as [|x s IH]; simpl; [discriminate|].
  destruct (cls x) eqn:Hx.
  - destruct (span cls s) as [run tail]; simpl in *. exact IH.
  - simpl. now intros [= <- _].
Qed.

Lemma span_cons_true (cls : char -> bool) (c : char) (s : pystr) :
  cls c = true ->
  span cls (c :: s) = (c :: fst (span cls s), snd (span cls s)).
Proof. intros H. simpl. rewrite H. now destruct (span cls s). Qed.

Lemma span_cons_false (cls : char -> bool) (c : char) (s : pystr) :
  cls c = false -> span cls (c :: s) = ([], c :: s).
Proof. intros H. simpl. now rewrite H. Qed.

Lemma span_app_stop (cls : char -> bool) (a : pystr) (c : char) (s : pystr) :
  forallb cls a = true -> cls c = false ->
  span cls (a ++ c :: s) = (a, c :: s).
Proof.
  intros Ha Hc. induction a as [|x a IH]; simpl in *.
  - now rewrite Hc.
  - apply andb_true_iff in Ha as [Hx Ha]. rewrite Hx, (IH Ha). reflexivity.
Qed.

Lemma span_app_go (cls : char -> bool) (a s : pystr) :
  forallb cls a = true ->
  span cls (a ++ s) = (a ++ fst (span cls s), snd (span cls s)).
Proof.
  intros Ha. induction a as [|x a IH]; simpl in *.
  - now destruct (span cls s).
  - apply andb_true_iff in Ha as [Hx Ha]. rewrite Hx, (IH Ha). reflexivity.
Qed.

Lemma strip_prefix_Some (p s t : pystr) :
  strip_prefix p s = Some t <-> s = p ++ t.
Proof.
  revert s; induction p as [|x p IH]; intros s; simpl.
  - split; [now intros [= ->] | now intros ->].
  - destruct s as [|y s]; [split; discriminate|].
    destruct (N.eqb_spec y x) as [->|Hne].
    + rewrite IH. split; [now intros -> | now intros [= ->]].
    + split; [discriminate | intros [= H _]; contradiction].
Qed.

Lemma startswith_strip_prefix (s p : pystr) :
  startswith s p = true <-> exists t, strip_prefix p s = Some t.
Proof.
  rewrite startswith_spec. split; intros [t H]; exists t; now apply strip_prefix_Some.
Qed.

Lemma greedy_span (cls : char -> bool)
    (k : pystr -> option char -> pystr -> option match_end) :
  (forall taken prev c s, cls c = true -> k taken prev (c :: s) = None) ->
  forall s taken prev,
    greedy cls k taken prev s =
    k (taken ++ fst (span cls s)) (prev_after (fst (span cls s)) prev)
      (snd (span cls s)).
Proof.
  intros Hk. induction s as [|c s IH]; intros taken prev; simpl.
  - now rewrite app_nil_r.
  - destruct (cls c) eqn:Hc.
    + rewrite IH, (Hk taken prev c s Hc).
      destruct (span cls s) as [run tail]; simpl.
      rewrite <- app_assoc. simpl.
      now destruct (k (taken ++ c :: run) (prev_after run (Some c)) tail).
    + simpl. now rewrite app_nil_r.
Qed.

Lemma exec_lits (w : pystr) (p : list atom) :
  forall cap prev s,
    exec (map Lit w ++ p) cap prev s =
    match strip_prefix w s with
    | Some s' => exec p cap (prev_after w prev) s'
    | None => None
    end.
Proof.
  induction w as [|x w IH]; intros cap prev s; simpl; [reflexivity|].
  destruct s as [|y s]; [reflexivity|].
  destruct (N.eqb_spec y x) as [->|Hne]; [|reflexivity].
  apply IH.
Qed.

(** Backtracking never helps [depends_on_re]: an attempt at a position is
    the single left-to-right reading [match_decl]. *)
Lemma exec_depends_on_re (prev : option char) (s : pystr) :
  exec depends_on_re [] prev s = match_decl prev s.
Proof.
  unfold match_decl, decl_at, depends_on_re. cbn [app exec].
  destruct (at_line_start prev); [|reflexivity].
  rewrite greedy_span.
  2:{ intros _ pr c t Hc. cbn [py list_ascii_of_string map app exec].
      destruct (N.eqb_spec c (N_of_ascii "d")) as [->|]; [discriminate|reflexivity]. }
  unfold lstrip. cbn [app].
  change (map Lit (py "depends_on(") ++
          [Lit dquote; Group1Plus not_dquote; Lit dquote; Lit 41%N])
    with (map Lit depends_on_open ++
          [Group1Plus not_dquote] ++ map Lit depends_on_close ++ []).
  rewrite exec_lits.
  destruct (strip_prefix depends_on_open (snd (span is_space s)))
    as [after|]; [|reflexivity].
  cbn [app exec].
  destruct after as [|x after]; [reflexivity|].
  destruct (not_dquote x) eqn:Hx.
  - rewrite span_cons_true by exact Hx.
    rewrite greedy_span.
    2:{ intros tk pr c t Hc. cbn [depends_on_close map app exec].
        unfold not_dquote in Hc. apply negb_true_iff in Hc. now rewrite Hc. }
    rewrite exec_lits. cbn [app exec].
    destruct (strip_prefix depends_on_close (snd (span not_dquote after)));
      reflexivity.
  - rewrite span_cons_false by exact Hx. reflexivity.
Qed.

Lemma decl_at_inv (t name tail : pystr) (p : option char) :
  decl_at t = Some (name, p, tail) ->
  t = declaration name ++ tail /\ name <> [] /\
  forallb not_dquote name = true /\ p = Some 41%N.
Proof.
  unfold decl_at, declaration.
  destruct (strip_prefix depends_on_open t) as [after|] eqn:E1; [|discriminate].
  apply strip_prefix_Some in E1.
  pose proof (span_fst_snd not_dquote after) as Hsplit.
  pose proof (span_fst_forallb not_dquote after) as Hall.
  destruct (span not_dquote after) as [[|c run] tl]; [discriminate|].
  destruct (strip_prefix depends_on_close tl) as [tail'|] eqn:E3; [|discriminate].
  apply strip_prefix_Some in E3. intros [= <- <- <-].
  simpl fst in *; simpl snd in *. subst tl.
  repeat split; try easy.
  rewrite E1, Hsplit. now rewrite <- !app_assoc.
Qed.

Lemma match_decl_inv (prev p : option char) (s name tail : pystr) :
  match_decl prev s = Some (name, p, tail) ->
  at_line_start prev = true /\
  s = fst (span is_space s) ++ declaration name ++ tail /\
  name <> [] /\ forallb not_dquote name = true /\ p = Some 41%N.
Proof.
  unfold match_decl. destruct (at_line_start prev); [|discriminate].
  intros H. apply decl_at_inv in H as [Ht [Hn [Hq Hp]]].
  repeat split; trivial.
  etransitivity; [apply (span_fst_snd is_space)|]. f_equal. exact Ht.
Qed.

Lemma match_decl_shorter (prev p : option char) (s name tail : pystr) :
  match_decl prev s = Some (name, p, tail) -> length tail < length s.
Proof.
  intros H. apply match_decl_inv in H as [_ [Hs _]].
  rewrite Hs. unfold declaration. rewrite !length_app. simpl. lia.
Qed.

(** ** The scan *)

Lemma findall_from_fuel (p : list atom) :
  forall fuel fuel' prev s,
    length s < fuel -> length s < fuel' ->
    findall_from p fuel prev s = findall_from p fuel' prev s.
Proof.
  induction fuel as [|fuel IH]; intros [|fuel'] prev s H1 H2; try lia.
  simpl.
  assert (Hadv : advance (findall_from p fuel) s = advance (findall_from p fuel') s).
  { destruct s as [|c s]; simpl; [reflexivity|]. apply IH; simpl in *; lia. }
  destruct (exec p [] prev s) as [[[g pr] s']|]; [|exact Hadv].
  f_equal. destruct (Nat.ltb_spec (length s') (length s)); [|exact Hadv].
  apply IH; lia.
Qed.

(** One step of the scan of [depends_on_re]. *)
Lemma findall_at_step (prev : option char) (s : pystr) :
  findall_at depends_on_re prev s =
  match match_decl prev s with
  | Some (g, prev', s') => g :: findall_at depends_on_re prev' s'
  | None => advance (findall_at depends_on_re) s
  end.
Proof.
  unfold findall_at at 1. cbn [findall_from]. rewrite exec_depends_on_re.
  assert (Hadv : advance (findall_from depends_on_re (length s)) s =
                 advance (findall_at depends_on_re) s).
  { destruct s; reflexivity. }
  destruct (match_decl prev s) as [[[g pr] s']|] eqn:E; [|exact Hadv].
  apply match_decl_shorter in E.
  destruct (Nat.ltb_spec (length s') (length s)); [|lia].
  f_equal. apply findall_from_fuel; lia.
Qed.

(** ** Lines *)

Lemma span_app (cls : char -> bool) (a b : pystr) :
  span cls (a ++ b) =
  match snd (span cls a) with
  | [] => (a ++ fst (span cls b), snd (span cls b))
  | _ :: _ => (fst (span cls a), snd (span cls a) ++ b)
  end.
Proof.
  induction a as [|x a IH]; simpl.
  - now destruct (span cls b).
  - destruct (cls x); [|reflexivity].
    rewrite IH. destruct (span cls a) as [run [|q tl]]; reflexivity.
Qed.

Lemma strip_prefix_app_newline (p a rest : pystr) :
  ~ In newline p ->
  strip_prefix p (a ++ newline :: rest) =
  option_map (fun t => t ++ newline :: rest) (strip_prefix p a).
Proof.
  revert a; induction p as [|x p IH]; intros a Hp;
    cbn [strip_prefix option_map]; [reflexivity|].
  destruct a as [|y a]; cbn [app strip_prefix option_map].
  - destruct (N.eqb_spec newline x) as [<-|]; [|reflexivity].
    exfalso. apply Hp. now left.
  - destruct (N.eqb y x); [|reflexivity].
    apply IH. intros H. apply Hp. now right.
Qed.

Lemma no_newline_open : ~ In newline depends_on_open.
Proof. vm_compute. intuition discriminate. Qed.

Lemma no_newline_close : ~ In newline depends_on_close.
Proof. vm_compute. intuition discriminate. Qed.

Lemma not_in_app_l {A} (x : A) (a b : list A) : ~ In x (a ++ b) -> ~ In x a.
Proof. intros H Ha. apply H, in_or_app. now left. Qed.

Lemma not_in_app_r {A} (x : A) (a b : list A) : ~ In x (a ++ b) -> ~ In x b.
Proof. intros H Hb. apply H, in_or_app. now right. Qed.

Lemma lstrip_no_newline (l : pystr) : ~ In newline l -> ~ In newline (lstrip l).
Proof.
  intros H. rewrite (span_fst_snd is_space l) in H. now apply not_in_app_r in H.
Qed.

Lemma lstrip_app_newline (l rest : pystr) :
  lstrip (l ++ newline :: rest) =
  match lstrip l with
  | [] => lstrip rest
  | _ :: _ => lstrip l ++ newline :: rest
  end.
Proof.
  unfold lstrip. rewrite span_app.
  destruct (snd (span is_space l)); [|reflexivity].
  simpl. now destruct (span is_space rest).
Qed.

(** Reading a declaration at the head of a line, with or without the text
    that follows the line: the only difference is a name that runs over
    the end of the line. *)
Lemma decl_at_line (a rest : pystr) :
  ~ In newline a ->
  match decl_at a with
  | Some (name, p, tail) =>
      decl_at (a ++ newline :: rest) = Some (name, p, tail ++ newline :: rest) /\
      ~ In newline tail
  | None =>
      decl_at (a ++ newline :: rest) = None \/
      exists name p tail,
        decl_at (a ++ newline :: rest) = Some (name, p, tail) /\ In newline name
  end.
Proof.
  intros Ha. unfold decl_at.
  rewrite strip_prefix_app_newline by apply no_newline_open.
  destruct (strip_prefix depends_on_open a) as [after|] eqn:E1; simpl option_map;
    [|now left].
  apply strip_prefix_Some in E1. subst a. apply not_in_app_r in Ha.
  rewrite span_app.
  pose proof (span_fst_snd not_dquote after) as Hsplit.
  destruct (span not_dquote after) as [run [|q tl]]; simpl fst in *; simpl snd in *.
  - rewrite app_nil_r in Hsplit. subst run.
    destruct (span not_dquote rest) as [run' tl'].
    simpl fst; simpl snd.
    destruct (strip_prefix depends_on_close tl') as [tail'|].
    + destruct after as [|c after]; cbn [app strip_prefix depends_on_close];
        right; eexists; eexists; eexists; (split; [reflexivity|]).
      * now left.
      * right. apply in_or_app. right. now left.
    + destruct after as [|c after]; cbn [app strip_prefix depends_on_close];
        now left.
  - destruct run as [|c name]; [now left|].
    change ((q :: tl) ++ newline :: rest) with ((q :: tl) ++ newline :: rest).
    rewrite strip_prefix_app_newline by apply no_newline_close.
    destruct (strip_prefix depends_on_close (q :: tl)) as [tail'|] eqn:E3;
      simpl option_map; [|now left].
    split; [reflexivity|].
    apply strip_prefix_Some in E3. rewrite Hsplit, E3 in Ha.
    now apply not_in_app_r, not_in_app_r in Ha.
Qed.

Lemma line_dependency_decl_at (l : pystr) :
  line_dependency l = option_map (fun r => fst (fst r)) (decl_at (lstrip l)).
Proof.
  unfold line_dependency, decl_at.
  destruct (strip_prefix depends_on_open (lstrip l)) as [after|]; [|reflexivity].
  destruct (span not_dquote after) as [[|c name] tl]; [reflexivity|].
  destruct (strip_prefix depends_on_close tl) as [tail'|] eqn:E.
  - assert (H : startswith tl depends_on_close = true)
      by (apply startswith_strip_prefix; eauto).
    now rewrite H.
  - destruct (startswith tl depends_on_close) eqn:H; [|reflexivity].
    apply startswith_strip_prefix in H as [t Ht]. congruence.
Qed.

(** After a position that is not a line start nothing matches before the
    next newline. *)
Lemma findall_skip (l rest : pystr) :
  ~ In newline l ->
  forall prev, at_line_start prev = false ->
    findall_at depends_on_re prev (l ++ newline :: rest) =
    findall_at depends_on_re (Some newline) rest.
Proof.
  induction l as [|c l IH]; intros Hl prev Hp;
    rewrite findall_at_step; unfold match_decl; rewrite Hp; simpl.
  - reflexivity.
  - apply IH.
    + intros H. apply Hl. now right.
    + simpl. apply N.eqb_neq. intros ->. apply Hl. now left.
Qed.

Lemma findall_skip_last (l : pystr) :
  ~ In newline l ->
  forall prev, at_line_start prev = false ->
    findall_at depends_on_re prev l = [].
Proof.
  induction l as [|c l IH]; intros Hl prev Hp;
    rewrite findall_at_step; unfold match_decl; rewrite Hp; simpl.
  - reflexivity.
  - apply IH.
    + intros H. apply Hl. now right.
    + simpl. apply N.eqb_neq. intros ->. apply Hl. now left.
Qed.

Lemma advance_line (l rest : pystr) :
  ~ In newline l ->
  advance (findall_at depends_on_re) (l ++ newline :: rest) =
  findall_at depends_on_re (Some newline) rest.
Proof.
  intros Hl. destruct l as [|c l]; simpl; [reflexivity|].
  apply findall_skip.
  - intros H. apply Hl. now right.
  - simpl. apply N.eqb_neq. intros ->. apply Hl. now left.
Qed.

Lemma advance_last (l : pystr) :
  ~ In newline l -> advance (findall_at depends_on_re) l = [].
Proof.
  intros Hl. destruct l as [|c l]; simpl; [reflexivity|].
  apply findall_skip_last.
  - intros H. apply Hl. now right.
  - simpl. apply N.eqb_neq. intros ->. apply Hl. now left.
Qed.

(** The scan over one line that is followed by more text. *)
Lemma findall_line (prev : option char) (l rest : pystr) :
  at_line_start prev = true -> ~ In newline l ->
  (exists name,
     In name (findall_at depends_on_re prev (l ++ newline :: rest)) /\
     In newline name) \/
  findall_at depends_on_re prev (l ++ newline :: rest) =
  opt_list (line_dependency l) ++ findall_at depends_on_re (Some newline) rest.
Proof.
  intros Hp Hl. rewrite line_dependency_decl_at.
  rewrite (findall_at_step prev). unfold match_decl. rewrite Hp.
  rewrite lstrip_app_newline.
  pose proof (lstrip_no_newline l Hl) as Hl'.
  destruct (lstrip l) as [|x l1] eqn:El.
  - (* a blank line: the attempt runs on into the next line *)
    right. simpl.
    rewrite (findall_at_step (Some newline) rest). unfold match_decl. simpl.
    destruct (decl_at (lstrip rest)) as [[[g p] s']|] eqn:E; [reflexivity|].
    rewrite advance_line by exact Hl.
    rewrite (findall_at_step (Some newline) rest). unfold match_decl. simpl.
    now rewrite E.
  - pose proof (decl_at_line (x :: l1) rest Hl') as Hd.
    destruct (decl_at (x :: l1)) as [[[name p] tail]|] eqn:E.
    + destruct Hd as [Hd Htail]. rewrite Hd. right. simpl.
      apply decl_at_inv in E as [_ [_ [_ ->]]].
      f_equal. now apply findall_skip.
    + destruct Hd as [Hd | [name [p [tail [Hd Hin]]]]]; rewrite Hd.
      * right. simpl. now apply advance_line.
      * left. exists name. split; [now left | exact Hin].
Qed.

(** The scan over the last line. *)
Lemma findall_last_line (prev : option char) (l : pystr) :
  at_line_start prev = true -> ~ In newline l ->
  findall_at depends_on_re prev l = opt_list (line_dependency l).
Proof.
  intros Hp Hl. rewrite line_dependency_decl_at.
  rewrite findall_at_step. unfold match_decl. rewrite Hp.
  pose proof (lstrip_no_newline l Hl) as Hl'.
  destruct (decl_at (lstrip l)) as [[[name p] tail]|] eqn:E; simpl.
  - apply decl_at_inv in E as [Ht [_ [_ ->]]].
    rewrite Ht in Hl'. apply not_in_app_r in Hl'.
    f_equal. now apply findall_skip_last.
  - now apply advance_last.
Qed.

Lemma lines_cases (s : pystr) :
  (~ In newline s /\ lines s = [s]) \/
  exists l rest,
    ~ In newline l /\ s = l ++ newline :: rest /\ lines s = l :: lines rest.
Proof.
  unfold lines. induction s as [|c s IH].
  - left. split; [intros [] | reflexivity].
  - cbn [split]. destruct (N.eqb_spec c newline) as [->|Hc].
    + right. exists [], s. repeat split. intros [].
    + destruct IH as [[Hs Hl] | [l [rest [Hl [Hs Hlines]]]]].
      * left. rewrite Hl. split; [|reflexivity].
        intros [H|H]; [congruence | contradiction].
      * right. exists (c :: l), rest. rewrite Hlines. repeat split.
        -- intros [H|H]; [congruence | contradiction].
        -- simpl. now f_equal.
Qed.

Lemma findall_at_lines :
  forall n s prev,
    length s < n -> at_line_start prev = true ->
    (forall name, In name (findall_at depends_on_re prev s) ->
                  ~ In newline name) ->
    findall_at depends_on_re prev s = declared_dependencies s.
Proof.
  induction n as [|n IH]; intros s prev Hn Hp Hnames; [lia|].
  unfold declared_dependencies.
  destruct (lines_cases s) as [[Hs Hl] | [l [rest [Hl [-> Hlines]]]]].
  - rewrite Hl. simpl. rewrite app_nil_r. now apply findall_last_line.
  - destruct (findall_line prev l rest Hp Hl) as [[name [Hin Hnl]] | Heq].
    + exfalso. exact (Hnames name Hin Hnl).
    + rewrite Heq, Hlines. simpl. f_equal. apply IH.
      * rewrite length_app in Hn. simpl in Hn. lia.
      * reflexivity.
      * intros name Hin. apply Hnames. rewrite Heq.
        apply in_or_app. now right.
Qed.

Lemma prev_after_app (a b : pystr) (prev : option char) :
  prev_after (a ++ b) prev = prev_after b (prev_after a prev).
Proof. unfold prev_after. apply fold_left_app. Qed.

(** Every name the scan extracts, in any content, is the name of a
    declaration text that stands at a line start after whitespace only. *)
Lemma findall_at_anchored :
  forall n s prev name,
    length s < n -> In name (findall_at depends_on_re prev s) ->
    exists before ws after,
      s = before ++ ws ++ declaration name ++ after /\
      at_line_start (prev_after before prev) = true /\
      forallb is_space ws = true /\
      forallb not_dquote name = true /\ name <> [].
Proof.
  induction n as [|n IH]; intros s prev name Hn Hin; [lia|].
  rewrite findall_at_step in Hin.
  destruct (match_decl prev s) as [[[g p] s']|] eqn:E.
  - pose proof (match_decl_shorter _ _ _ _ _ E) as Hlen.
    apply match_decl_inv in E as [Hp [Hs [Hg [Hq ->]]]].
    destruct Hin as [<- | Hin].
    + exists [], (fst (span is_space s)), s'. repeat split; trivial.
      apply span_fst_forallb.
    + apply IH in Hin as [before [ws [after [Hs' [Hb Hrest]]]]]; [|lia].
      exists (fst (span is_space s) ++ declaration g ++ before), ws, after.
      split; [|split; [|exact Hrest]].
      * rewrite Hs at 1. rewrite Hs'. now rewrite <- !app_assoc.
      * rewrite app_assoc, prev_after_app.
        unfold declaration at 1. rewrite !app_assoc, prev_after_app.
        exact Hb.
  - destruct s as [|c s]; simpl in Hin; [contradiction|].
    apply IH in Hin as [before [ws [after [Hs' [Hb Hrest]]]]];
      [|simpl in Hn; lia].
    exists (c :: before), ws, after. split; [|split; [exact Hb|exact Hrest]].
    simpl. now f_equal.
Qed.

Lemma findall_anchored (content name : pystr) :
  In name (findall depends_on_re content) ->
  exists before ws after,
    content = before ++ ws ++ declaration name ++ after /\
    at_line_start (prev_after before None) = true /\
    forallb is_space ws = true /\
    forallb not_dquote name = true /\ name <> [].
Proof. apply (findall_at_anchored (S (length content))). lia. Qed.

(** C1, as the specification words it, fails: a name may run over a line
    break.  The declaration of the name [a], newline, [b] is extracted as
    one dependency, while neither of the two lines is a declaration. *)
Lemma dependencies_line_by_line_counterexample :
  findall depends_on_re two_line_name = [py "a" ++ [newline] ++ py "b"] /\
  declared_dependencies two_line_name = [] /\
  findall depends_on_re two_line_name <> declared_dependencies two_line_name.
Proof. repeat split. discriminate. Qed.

(** A line that is a declaration on its own is not extracted when it closes
    a name opened on the line before. *)
Example shadowed_line_dependencies :
  findall depends_on_re shadowed_line = [py "a" ++ [newline] ++ py "depends_on("] /\
  declared_dependencies shadowed_line = [py ")foo"].
Proof. split; reflexivity. Qed.

(** C1 (amended): when no extracted name contains a line break, the list
    extracted by the pattern of [get_module_dependency] is, in file order,
    the list of the names of the lines that read, after optional leading
    whitespace, [depends_on(Q<name>Q)]: one at most per line, nothing from
    text further inside a line. *)
Theorem dependencies_line_by_line (content : pystr) :
  (forall name, In name (findall depends_on_re content) -> ~ In newline name) ->
  findall depends_on_re content = declared_dependencies content.
Proof.
  intros H. apply (findall_at_lines (S (length content))); trivial. lia.
Qed.

Lemma dependencies_line_by_line_witness :
  (forall name, In name (findall depends_on_re sample_module) ->
                ~ In newline name) /\
  findall depends_on_re sample_module = [py "gcc/12.2"; py "openmpi"] /\
  findall depends_on_re sample_module = declared_dependencies sample_module.
Proof.
  assert (H : forall name, In name (findall depends_on_re sample_module) ->
                           ~ In newline name).
  { intros name Hin. vm_compute in Hin.
    destruct Hin as [<- | [<- | []]]; vm_compute; intuition discriminate. }
  split; [exact H|]. split; [reflexivity|].
  exact (dependencies_line_by_line sample_module H).
Defined.

(** ** Reading module files *)

Lemma module_record_no_dependency (pkg_name file text : pystr) :
  findall depends_on_re text = [] ->
  module_record pkg_name file text = [pkg_name ++ [slash] ++ stem file; []].
Proof. unfold module_record. now intros ->. Qed.

Lemma module_record_fields (pkg_name file text : pystr) :
  exists dependency,
    module_record pkg_name file text =
    [pkg_name ++ [slash] ++ stem file; dependency].
Proof.
  unfold module_record.
  destruct (Nat.ltb 0 (length (findall depends_on_re text))); eauto.
Qed.

(** As long as no file is missing, every readable file gives its record,
    in order, and every other file a warning and nothing else. *)
Lemma module_files_no_missing (fs : filesystem) (pkg_name : pystr) :
  forall files output out,
    (forall file, In file files -> read fs file <> FileNotFound) ->
    module_files fs pkg_name files output out =
    (Ret (output ++
          flat_map (fun file =>
                      match read fs file with
                      | Content text => [module_record pkg_name file text]
                      | _ => []
                      end) files),
     out ++
     flat_map (fun file =>
                 match read fs file with
                 | ReadError msg => [Print (py "An error occurred: " ++ msg)]
                 | _ => []
                 end) files).
Proof.
  induction files as [|file files IH]; intros output out Hread; simpl.
  - unfold ret. now rewrite !app_nil_r.
  - assert (Hrest : forall f, In f files -> read fs f <> FileNotFound)
      by (intros f Hf; apply Hread; now right).
    pose proof (Hread file (or_introl eq_refl)) as Hfile.
    destruct (read fs file) as [text| |msg]; [| contradiction |].
    + rewrite IH by exact Hrest. now rewrite <- app_assoc.
    + unfold bind, print. rewrite IH by exact Hrest.
      now rewrite <- app_assoc.
Qed.

(** A missing file ends the function, and with it the program, by an
    uncaught [NameError]. *)
Lemma module_files_missing (fs : filesystem) (pkg_name file : pystr)
    (files : list pystr) (output : group) (out : list event) :
  read fs file = FileNotFound ->
  module_files fs pkg_name (file :: files) output out = (Raise NameError, out).
Proof. intros H. simpl. now rewrite H. Qed.

Example unreadable_file_is_skipped :
  get_module_dependency fs_unreadable (py "/sw/modules/Apps/gcc") (py "gcc") [] =
  (Ret [[py "gcc/11.4"; []]; [py "gcc/13.1"; py "binutils"]],
   [Print (py "An error occurred: [Errno 13] Permission denied")]).
Proof. reflexivity. Qed.

(** C4: the claim holds for a file that is read (no dependency gives the
    empty string) and for a file whose reading fails otherwise, see
    [module_files_no_missing]; it fails for a file that is missing when it
    is opened.  In [fs_dangling] the module file [12.2.lua] is a dangling
    symbolic link: [get_module_dependency] prints no warning and gives no
    record, not even for the readable [13.1.lua], and the whole run ends
    with [NameError]. *)
Theorem missing_module_file_is_fatal :
  glob fs_dangling (py "/sw/modules/Apps/gcc/*.lua") =
    [py "/sw/modules/Apps/gcc/12.2.lua"; py "/sw/modules/Apps/gcc/13.1.lua"] /\
  read fs_dangling (py "/sw/modules/Apps/gcc/12.2.lua") = FileNotFound /\
  get_module_dependency fs_dangling (py "/sw/modules/Apps/gcc") (py "gcc") [] =
    (Raise NameError, []) /\
  main fs_dangling (py "/sw/modules") None [] [] = (Raise NameError, []).
Proof. repeat split. Qed.

(** ** Module names of a flat collection *)

(** The test of [get_module_names] is on the collection directory, not on
    the entry: once the directory is listed, every entry is returned. *)
Lemma get_module_names_all_entries (fs : filesystem)
    (directory collection : pystr) (names : list pystr) (out : list event) :
  listdir fs (os_path_join directory [collection]) = Listed names ->
  isdir fs (os_path_join directory [collection]) = true ->
  get_module_names fs directory collection out = (Ret (Some names), out).
Proof.
  intros Hl Hd. unfold get_module_names. rewrite Hl, Hd. unfold ret.
  repeat f_equal. clear Hl.
  induction names as [|n names IH]; cbn [filter]; [reflexivity|].
  now f_equal.
Qed.

(** C7: in [fs_apps] the entry [README] of the flat collection [Apps] is a
    plain file, and [get_module_names] returns it as a module name. *)
Theorem get_module_names_returns_plain_file :
  listdir fs_apps (py "/sw/modules/Apps") =
    Listed [py "README"; py "gcc"; py "docs"] /\
  isdir fs_apps (py "/sw/modules/Apps/README") = false /\
  get_module_names fs_apps (py "/sw/modules") (py "Apps") [] =
    (Ret (Some [py "README"; py "gcc"; py "docs"]), []).
Proof. repeat split. Qed.

(** ** Collection names *)

Lemma list_in_spec (x : pystr) (l : list pystr) :
  list_in x l = true <-> In x l.
Proof.
  unfold list_in. rewrite existsb_exists. split.
  - intros [y [Hy Hxy]]. apply str_eqb_eq in Hxy. now subst.
  - intros H. exists x. split; [exact H | apply str_eqb_refl].
Qed.

(** C6 (amended): when the collections of the root directory have been
    listed and the names given with [--collection] include one that is not
    among them, [main] prints [Invalid Collection Name] and leaves through
    [sys.exit(1)]; nothing else is written, no collection is scanned. *)
Theorem invalid_collection_name_exits
    (fs : filesystem) (directory keyword : pystr)
    (requested discovered : list pystr) (out : list event) :
  gather_collections fs directory out = (Ret (Some discovered), out) ->
  (exists x, In x requested /\ ~ In x discovered) ->
  main fs directory (Some requested) keyword out =
    (Exit 1, out ++ [Print (py "Invalid Collection Name")]) /\
  (1 <> 0)%Z.
Proof.
  intros Hg [x [Hx Hnot]]. split; [|discriminate].
  unfold main, bind. rewrite Hg.
  destruct (forallb _ requested) eqn:Hall; [exfalso | reflexivity].
  rewrite forallb_forall in Hall. specialize (Hall x Hx).
  apply list_in_spec, filter_In in Hall. now apply Hnot.
Qed.

Lemma invalid_collection_name_exits_witness :
  gather_collections fs_mpi (py "/sw/modules") [] = (Ret (Some [py "MPI"]), []) /\
  main fs_mpi (py "/sw/modules") (Some [py "MPI"; py "Bogus"]) (py "mpi") [] =
    (Exit 1, [Print (py "Invalid Collection Name")]).
Proof.
  split; [reflexivity|].
  refine (proj1 (invalid_collection_name_exits fs_mpi (py "/sw/modules")
                   (py "mpi") [py "MPI"; py "Bogus"] [py "MPI"] [] eq_refl _)).
  exists (py "Bogus"). split.
  - right. now left.
  - intros [H | []]. vm_compute in H. discriminate.
Defined.

(** C6, as the specification words it, fails when the root directory cannot
    be listed: nothing is discovered, the requested name [Bogus] is not
    among the discovered collections, and the run writes the error of the
    listing and ends by [TypeError], without the line
    [Invalid Collection Name]. *)
Lemma invalid_collection_name_unlistable_counterexample :
  gather_collections fs_noroot (py "/sw/modules") [] =
    (Ret None,
     [Print (py "Error: [Errno 2] No such file or directory: '/sw/modules'")]) /\
  main fs_noroot (py "/sw/modules") (Some [py "Bogus"]) [] [] =
    (Raise TypeError,
     [Print (py "Error: [Errno 2] No such file or directory: '/sw/modules'")]) /\
  ~ In (Print (py "Invalid Collection Name"))
       (snd (main fs_noroot (py "/sw/modules") (Some [py "Bogus"]) [] [])).
Proof.
  split; [reflexivity|]. split; [reflexivity|].
  intros [H | []]. discriminate.
Qed.

(** ** The report of a collection without rows *)

Lemma concat_nil_nonempty {A} (l : list (list A)) :
  (forall g, In g l -> g <> []) -> concat l = [] -> l = [].
Proof.
  destruct l as [|g l]; [reflexivity|]. intros Hne Hc. simpl in Hc.
  apply app_eq_nil in Hc as [Hg _].
  exfalso. apply (Hne g); [now left | exact Hg].
Qed.

Lemma Filter_nonempty (data : list group) (keyword : pystr) (g : group) :
  In g (Filter data keyword) -> g <> [].
Proof.
  intros H. apply Filter_In in H as [_ H]. intros ->. discriminate.
Qed.

Lemma Filter_none (data : list group) (keyword : pystr) :
  (forall g r item, In g data -> In r g -> In item r ->
                    str_in keyword item = false) ->
  Filter data keyword = [].
Proof.
  intros H. destruct (Filter data keyword) as [|g l] eqn:E; [reflexivity|].
  assert (Hg : In g (Filter data keyword)) by (rewrite E; now left).
  apply Filter_In in Hg as [Hg Hany].
  apply any_item_spec in Hany as [r [item [Hr [Hi Hk]]]].
  rewrite (H g r item Hg Hr Hi) in Hk. discriminate.
Qed.

Lemma report_zero (collection : pystr) (headers : list pystr)
    (filter_ : bool) (keyword : pystr) (groups : list group)
    (out : list event) :
  (forall g, In g groups -> g <> []) \/ filter_ = true ->
  concat (if filter_ then Filter groups keyword else groups) = [] ->
  report collection headers filter_ keyword groups out =
  (Ret tt, out ++ [Print (py "0 softwares found for " ++ collection)]).
Proof.
  intros Hne Hc. unfold report.
  assert (Hnil : (if filter_ then Filter groups keyword else groups) = []).
  { apply concat_nil_nonempty; [|exact Hc].
    destruct filter_.
    - intros g. apply Filter_nonempty.
    - destruct Hne as [Hne|Hf]; [exact Hne | discriminate]. }
  rewrite Hnil. reflexivity.
Qed.

Lemma stacked_modules_nonempty (fs : filesystem) (directory collection : pystr)
    (decode : decoder) :
  forall modules output out groups out',
    stacked_modules fs directory collection decode modules output out =
      (Ret groups, out') ->
    (forall g, In g output -> g <> []) ->
    forall g, In g groups -> g <> [].
Proof.
  induction modules as [|module modules IH];
    intros output out groups out' Hrun Hout; cbn [stacked_modules] in Hrun.
  - unfold ret in Hrun. injection Hrun as <- _. exact Hout.
  - unfold bind in Hrun.
    destruct (decode (split slash module) out) as [[ctx| |] o1];
      try discriminate.
    destruct (get_module_dependency fs _ (snd ctx) o1) as [[y| |] o2];
      try discriminate.
    destruct (Nat.ltb 0 (length y)) eqn:Hy.
    + apply (IH _ _ _ _ Hrun). intros g Hg.
      apply in_app_or in Hg as [Hg | [<- | []]]; [now apply Hout|].
      apply Nat.ltb_lt in Hy. destruct y; [simpl in Hy; lia | discriminate].
    + now apply (IH _ _ _ _ Hrun).
Qed.

Lemma is_stacked_cases (collection : pystr) :
  is_stacked collection = true ->
  collection = py "Python" \/ collection = py "MPI" \/
  collection = py "Compilers".
Proof.
  unfold is_stacked. rewrite list_in_spec.
  intros [H | [H | [H | []]]]; auto.
Qed.

Lemma is_stacked_false (collection : pystr) :
  is_stacked collection = false ->
  str_eqb collection (py "MPI") = false /\
  str_eqb collection (py "Python") = false /\
  str_eqb collection (py "Compilers") = false.
Proof.
  unfold is_stacked, list_in. cbn [existsb]. intros H.
  apply orb_false_iff in H as [Hp H]. apply orb_false_iff in H as [Hm H].
  apply orb_false_iff in H as [Hc _]. auto.
Qed.

(** [scan] is the scanning part of the program: what [main] does for one
    collection is the scan, then the report of its groups. *)
Lemma main_collection_scan (fs : filesystem) (directory collection : pystr)
    (filter_ : bool) (keyword : pystr) (out : list event) :
  main_collection fs directory filter_ keyword collection out =
  match scan fs directory collection out with
  | (Ret (Some groups), out') =>
      report collection (headers_of collection) filter_ keyword groups out'
  | (Ret None, out') => (Ret tt, out')
  | (Exit code, out') => (Exit code, out')
  | (Raise e, out') => (Raise e, out')
  end.
Proof.
  unfold main_collection, scan.
  destruct (is_stacked collection) eqn:Hst; cbn [negb].
  - assert (Hkw : (if filter_
                   then stacked_case fs directory collection filter_ keyword
                   else stacked_case fs directory collection false []) out =
                  stacked_case fs directory collection filter_ keyword out).
    { destruct filter_; [reflexivity|]. unfold stacked_case.
      destruct (Nat.ltb 0 _); [|reflexivity]. unfold bind, report.
      destruct (lift _ out) as [[modules| |] o]; reflexivity. }
    rewrite Hkw. clear Hkw. unfold stacked_case.
    destruct (Nat.ltb 0 (length (stacked_get_module_names fs directory collection)));
      [|reflexivity].
    unfold bind, lift, ret.
    destruct (stacked_module_path_cleanup _ collection) as [modules| |];
      try reflexivity.
    destruct (is_stacked_cases collection Hst) as [-> | [-> | ->]].
    + replace (str_eqb (py "Python") (py "MPI")) with false by reflexivity.
      replace (str_eqb (py "Python") (py "Python")) with true by reflexivity.
      change (decoder_of (py "Python")) with decode_python.
      now destruct (stacked_modules fs directory (py "Python") decode_python
                      modules [] out) as [[output| |] o].
    + replace (str_eqb (py "MPI") (py "MPI")) with true by reflexivity.
      change (decoder_of (py "MPI")) with decode_mpi.
      now destruct (stacked_modules fs directory (py "MPI") decode_mpi
                      modules [] out) as [[output| |] o].
    + replace (str_eqb (py "Compilers") (py "MPI")) with false by reflexivity.
      replace (str_eqb (py "Compilers") (py "Python")) with false by reflexivity.
      replace (str_eqb (py "Compilers") (py "Compilers")) with true by reflexivity.
      change (decoder_of (py "Compilers")) with decode_compilers.
      now destruct (stacked_modules fs directory (py "Compilers") decode_compilers
                      modules [] out) as [[output| |] o].
  - destruct (is_stacked_false collection Hst) as [Hm [Hp Hc]].
    unfold headers_of. rewrite Hm, Hp, Hc.
    unfold bind, raise, lift, ret.
    destruct (get_module_names fs directory collection out)
      as [[[modules|]| |] o1]; try reflexivity.
    destruct (Nat.ltb 0 (length modules)); [|reflexivity].
    now destruct (flat_modules fs directory collection modules [] o1)
      as [[output| |] o2].
Qed.

(** The groups of a stacked collection all have rows. *)
Lemma scan_stacked_nonempty (fs : filesystem) (directory collection : pystr)
    (groups : list group) (out out' : list event) :
  is_stacked collection = true ->
  scan fs directory collection out = (Ret (Some groups), out') ->
  forall g, In g groups -> g <> [].
Proof.
  intros Hst Hscan. unfold scan in Hscan. rewrite Hst in Hscan.
  destruct (Nat.ltb 0 (length (stacked_get_module_names fs directory collection)));
    [|discriminate].
  unfold bind, lift, ret in Hscan.
  destruct (stacked_module_path_cleanup _ collection) as [modules| |];
    try discriminate.
  destruct (stacked_modules fs directory collection (decoder_of collection)
              modules [] out) as [[output| |] o] eqn:Hrun; try discriminate.
  injection Hscan as -> ->.
  apply (stacked_modules_nonempty _ _ _ _ _ _ _ _ _ Hrun). intros g [].
Qed.

(** C5, as the specification words it, fails on the text of the line: with
    the one MPI module of [fs_mpi], which depends on [zlib] only, filtering
    MPI by [mpi] leaves no row, and the program writes
    [0 softwares found for MPI]. *)
Lemma zero_software_found_counterexample :
  (exists groups,
     scan fs_mpi (py "/sw/modules") (py "MPI") [] = (Ret (Some groups), []) /\
     concat (Filter groups (py "mpi")) = []) /\
  main fs_mpi (py "/sw/modules") (Some [py "MPI"]) (py "mpi") [] =
    (Ret tt, [Print (py "0 softwares found for MPI")]) /\
  main fs_mpi (py "/sw/modules") (Some [py "MPI"]) (py "mpi") [] <>
    (Ret tt, [Print (py "0 software found for MPI")]).
Proof.
  split; [|split].
  - eexists. split; reflexivity.
  - reflexivity.
  - discriminate.
Qed.

(** The keyword is looked for in every field: the module [fftw/3.3] of
    [fs_openmpi] declares no dependency at all, and filtering MPI by [mpi]
    still reports it, for its context field [openmpi]. *)
Example openmpi_context_field_matches :
  main fs_openmpi (py "/sw/modules") (Some [py "MPI"]) (py "mpi") [] =
  (Ret tt,
   [Print [newline];
    PrintTable [[py "openmpi"; py "gcc"; py "fftw/3.3"; []]]
      [py "MPI Ver."; py "Compiler"; py "MPI Packages"; py "Dependency"]]).
Proof. reflexivity. Qed.

(** An unfiltered flat collection keeps the groups without records: the
    collection [Apps] of [fs_docs] has no row, and a table without rows is
    written for it. *)
Example flat_collection_without_rows :
  scan fs_docs (py "/sw/modules") (py "Apps") [] = (Ret (Some [[]]), []) /\
  main fs_docs (py "/sw/modules") None [] [] =
  (Ret tt,
   [Print [newline];
    PrintTable [] [py "Apps Packages"; py "Dependency"]]).
Proof. split; reflexivity. Qed.

(** C5 (amended): for a stacked collection, and for a flat collection that
    is filtered by a non-empty keyword, whose enumeration is not empty:
    when the scan, after the optional filtering, leaves no row (in
    particular when the keyword is not empty and no field of any record
    contains it), the program writes after the output of the scan exactly
    the line [0 softwares found for <collection>], and no table. *)
Theorem zero_softwares_found
    (fs : filesystem) (directory keyword collection : pystr)
    (groups : list group) (out out' : list event) :
  scan fs directory collection out = (Ret (Some groups), out') ->
  is_stacked collection = true \/ keyword <> [] ->
  concat (if Nat.ltb 0 (length keyword) then Filter groups keyword
          else groups) = [] \/
  (keyword <> [] /\
   forall g r item, In g groups -> In r g -> In item r ->
                    str_in keyword item = false) ->
  main_collection fs directory (Nat.ltb 0 (length keyword)) keyword collection out =
  (Ret tt, out' ++ [Print (py "0 softwares found for " ++ collection)]).
Proof.
  intros Hscan Hcase Hrows.
  assert (Hkw : keyword <> [] -> Nat.ltb 0 (length keyword) = true).
  { intros H. destruct keyword; [contradiction | reflexivity]. }
  rewrite main_collection_scan, Hscan.
  apply report_zero.
  - destruct Hcase as [Hst | Hk]; [left | right; now apply Hkw].
    now apply (scan_stacked_nonempty fs directory collection groups out out').
  - destruct Hrows as [H | [Hk Hnone]]; [exact H|].
    rewrite (Hkw Hk), (Filter_none groups keyword Hnone). reflexivity.
Qed.

Lemma zero_softwares_found_witness :
  scan fs_mpi (py "/sw/modules") (py "MPI") [] =
    (Ret (Some [[[py "ofed"; py "gcc"; py "hdf5/1.12"; py "zlib"]]]), []) /\
  main_collection fs_mpi (py "/sw/modules") true (py "mpi") (py "MPI") [] =
    (Ret tt, [Print (py "0 softwares found for MPI")]).
Proof.
  split; [reflexivity|].
  refine (zero_softwares_found fs_mpi (py "/sw/modules") (py "mpi") (py "MPI")
            [[[py "ofed"; py "gcc"; py "hdf5/1.12"; py "zlib"]]] [] []
            eq_refl (or_introl eq_refl) (or_introl eq_refl)).
Defined.

(* ===================================================================== *)
(** * Part III: further properties of the code                            *)
(* ===================================================================== *)

(** ** [split], [join] and [list_of_strings] *)

Lemma split_not_nil (sep : char) (s : pystr) : split sep s <> [].
Proof.
  destruct s as [|c s]; simpl; [discriminate|].
  destruct (N.eqb c sep); [discriminate|].
  destruct (split sep s); discriminate.
Qed.

Lemma join_cons (sep x : pystr) (l : list pystr) :
  l <> [] -> join sep (x :: l) = x ++ sep ++ join sep l.
Proof. destruct l; [contradiction | reflexivity]. Qed.

Lemma join_split (sep : char) (s : pystr) : join [sep] (split sep s) = s.
Proof.
  induction s as [|c s IH]; [reflexivity|]. cbn [split].
  destruct (N.eqb_spec c sep) as [->|Hc].
  - rewrite join_cons by apply split_not_nil. simpl. now rewrite IH.
  - destruct (split sep s) as [|seg segs] eqn:E.
    + now apply split_not_nil in E.
    + destruct segs as [|seg' segs].
      * simpl in *. now rewrite IH.
      * rewrite join_cons by discriminate.
        rewrite join_cons in IH by discriminate.
        simpl. f_equal. exact IH.
Qed.

Lemma split_no_sep (sep : char) (s seg : pystr) :
  In seg (split sep s) -> ~ In sep seg.
Proof.
  revert seg. induction s as [|c s IH]; intros seg; cbn [split].
  - intros [<- | []] [].
  - destruct (N.eqb_spec c sep) as [->|Hc].
    + intros [<- | H]; [intros [] | now apply IH].
    + destruct (split sep s) as [|seg0 segs].
      * intros [<- | []] [H | []]. congruence.
      * intros [<- | H].
        -- intros [H | H]; [congruence|]. apply (IH seg0); [now left | exact H].
        -- apply IH. now right.
Qed.

Lemma split_app_sep (sep : char) (a b : pystr) :
  ~ In sep a -> split sep (a ++ sep :: b) = a :: split sep b.
Proof.
  induction a as [|c a IH]; intros Ha; cbn [app split].
  - now rewrite N.eqb_refl.
  - destruct (N.eqb_spec c sep) as [->|Hc]; [exfalso; apply Ha; now left|].
    rewrite IH; [reflexivity|]. intros H. apply Ha. now right.
Qed.

Lemma split_no_sep_id (sep : char) (a : pystr) :
  ~ In sep a -> split sep a = [a].
Proof.
  induction a as [|c a IH]; intros Ha; cbn [split]; [reflexivity|].
  destruct (N.eqb_spec c sep) as [->|Hc]; [exfalso; apply Ha; now left|].
  rewrite IH; [reflexivity|]. intros H. apply Ha. now right.
Qed.

Lemma split_join (sep : char) (l : list pystr) :
  l <> [] -> (forall x, In x l -> ~ In sep x) ->
  split sep (join [sep] l) = l.
Proof.
  induction l as [|x l IH]; intros Hne Hl; [contradiction|].
  destruct l as [|y l].
  - simpl. apply split_no_sep_id. apply Hl. now left.
  - rewrite join_cons by discriminate. cbn [app].
    rewrite split_app_sep by (apply Hl; now left).
    f_equal. apply IH; [discriminate|].
    intros z Hz. apply Hl. now right.
Qed.

(** X1: the names of [--collection] joined by commas give back the
    argument; no name contains a comma, and there is one name more than
    there are commas (an empty argument gives the one empty name). *)
Theorem list_of_strings_round_trip (arg : pystr) :
  join [44%N] (list_of_strings arg) = arg /\
  (forall name, In name (list_of_strings arg) -> ~ In 44%N name) /\
  length (list_of_strings arg) = S (count_occ N.eq_dec arg 44%N).
Proof.
  unfold list_of_strings. split; [apply join_split|]. split.
  - intros name. apply split_no_sep.
  - apply length_split.
Qed.

(** X2: a non-empty list of names without commas, written with commas
    between them, is read back by [list_of_strings] as the same list. *)
Theorem list_of_strings_of_joined (names : list pystr) :
  names <> [] -> (forall name, In name names -> ~ In 44%N name) ->
  list_of_strings (join [44%N] names) = names.
Proof. unfold list_of_strings. apply split_join. Qed.

Lemma list_of_strings_of_joined_witness :
  list_of_strings (py "MPI,Python,Apps") = [py "MPI"; py "Python"; py "Apps"].
Proof.
  refine (list_of_strings_of_joined [py "MPI"; py "Python"; py "Apps"] _ _).
  - discriminate.
  - intros name [<- | [<- | [<- | []]]]; vm_compute; intuition discriminate.
Defined.

(** ** Paths: segments, [Path.stem] and [os.path.join] *)

Lemma split_app (sep : char) (a b : pystr) :
  split sep (a ++ sep :: b) = split sep a ++ split sep b.
Proof.
  induction a as [|c a IH]; cbn [app split].
  - now rewrite N.eqb_refl.
  - rewrite IH. destruct (N.eqb c sep); [reflexivity|].
    destruct (split sep a) as [|seg segs] eqn:E; [|reflexivity].
    now apply split_not_nil in E.
Qed.

Lemma rfind_none (c : char) (w : pystr) : ~ In c w -> rfind c w = None.
Proof.
  induction w as [|x w IH]; intros Hw; simpl; [reflexivity|].
  rewrite IH by (intros H; apply Hw; now right).
  destruct (N.eqb_spec x c) as [->|]; [|reflexivity].
  exfalso. apply Hw. now left.
Qed.

Lemma rfind_last (c : char) (b w : pystr) :
  ~ In c w -> rfind c (b ++ c :: w) = Some (length b).
Proof.
  intros Hw. induction b as [|x b IH]; simpl.
  - now rewrite (rfind_none c w Hw), N.eqb_refl.
  - now rewrite IH.
Qed.

Lemma firstn_length_app {A} (a b : list A) : firstn (length a) (a ++ b) = a.
Proof. induction a as [|x a IH]; simpl; [now destruct b | now f_equal]. Qed.

Lemma path_name_last (dir base : pystr) :
  ~ In slash base -> path_name (dir ++ slash :: base) = base.
Proof.
  intros Hb. unfold path_name.
  rewrite split_app, (split_no_sep_id slash base Hb). apply last_last.
Qed.

(** X3: the version of a module file is its file name without [.lua]:
    for a file [<dir>/<base>.lua], with [<base>] not empty and without
    slash, [Path(file).stem] is [<base>], dots included, and the identity
    field of its record is [<pkg_name>/<base>]. *)
Theorem stem_of_lua_file (dir base pkg_name text : pystr) :
  base <> [] -> ~ In slash base ->
  stem (dir ++ [slash] ++ base ++ py ".lua") = base /\
  hd [] (module_record pkg_name (dir ++ [slash] ++ base ++ py ".lua") text) =
    pkg_name ++ [slash] ++ base.
Proof.
  intros Hne Hb.
  assert (Hstem : stem (dir ++ [slash] ++ base ++ py ".lua") = base).
  { unfold stem. cbn [app].
    rewrite path_name_last.
    2:{ intros H. apply in_app_or in H as [H | H]; [now apply Hb|].
        vm_compute in H. intuition discriminate. }
    change (py ".lua") with (dot :: py "lua").
    rewrite rfind_last by (vm_compute; intuition discriminate).
    rewrite length_app.
    assert (H0 : Nat.ltb 0 (length base) = true)
      by (apply Nat.ltb_lt; destruct base; [contradiction | simpl; lia]).
    assert (H1 : Nat.ltb (length base) (length base + length (dot :: py "lua") - 1) = true)
      by (apply Nat.ltb_lt; simpl; lia).
    rewrite H0, H1. apply firstn_length_app. }
  split; [exact Hstem|].
  unfold module_record. rewrite Hstem.
  now destruct (Nat.ltb 0 (length (findall depends_on_re text))).
Qed.

Lemma stem_of_lua_file_witness :
  stem (py "/sw/modules/MPI/ofed/gcc/hdf5/1.12.lua") = py "1.12" /\
  hd [] (module_record (py "hdf5") (py "/sw/modules/MPI/ofed/gcc/hdf5/1.12.lua")
           (declaration (py "zlib"))) = py "hdf5/1.12".
Proof.
  refine (stem_of_lua_file (py "/sw/modules/MPI/ofed/gcc/hdf5") (py "1.12")
            (py "hdf5") (declaration (py "zlib")) _ _).
  - discriminate.
  - vm_compute. intuition discriminate.
Defined.

Lemma endswith_slash_app (a b : pystr) :
  b <> [] -> endswith_slash (a ++ b) = endswith_slash b.
Proof.
  intros Hb. destruct (exists_last Hb) as [b' [x ->]].
  unfold endswith_slash. now rewrite app_assoc, !rev_unit.
Qed.

(** X4: the directory [stacked_case] looks into for a walked path.  When
    the path is absolute, [os.path.join(directory, collection, module)] is
    the path itself.  When the root is relative, the walked paths are
    relative too, and the joined path repeats the root and the collection:
    [directory/collection/directory/collection/...]. *)
Theorem stacked_module_directory (directory collection rest : pystr) :
  (forall module,
     startswith module [slash] = true ->
     os_path_join directory [collection; module] = module) /\
  (directory <> [] -> collection <> [] ->
   startswith directory [slash] = false ->
   startswith collection [slash] = false ->
   endswith_slash directory = false ->
   endswith_slash collection = false ->
   os_path_join directory
     [collection; directory ++ [slash] ++ collection ++ rest] =
   directory ++ [slash] ++ collection ++ [slash] ++
   (directory ++ [slash] ++ collection ++ rest)).
Proof.
  split.
  - intros module Hm. unfold os_path_join. cbn [fold_left].
    unfold join2 at 1. now rewrite Hm.
  - intros Hd Hc Hds Hcs Hde Hce. unfold os_path_join. cbn [fold_left].
    assert (H1 : join2 directory collection = directory ++ [slash] ++ collection).
    { unfold join2. rewrite Hcs. destruct directory; [contradiction|].
      now rewrite Hde. }
    rewrite H1. unfold join2.
    assert (H2 : startswith (directory ++ [slash] ++ collection ++ rest) [slash]
                 = false).
    { destruct directory as [|x d]; [contradiction|]. exact Hds. }
    rewrite H2.
    assert (H3 : endswith_slash (directory ++ [slash] ++ collection) = false).
    { rewrite app_assoc, endswith_slash_app; assumption. }
    rewrite H3. destruct directory; [contradiction|].
    cbn [app]. f_equal. rewrite <- !app_assoc. reflexivity.
Qed.

Lemma stacked_module_directory_witness :
  os_path_join (py "/sw/modules") [py "MPI"; py "/sw/modules/MPI/ofed/gcc/hdf5"] =
    py "/sw/modules/MPI/ofed/gcc/hdf5" /\
  os_path_join (py "modules") [py "MPI"; py "modules/MPI/ofed/gcc/hdf5"] =
    py "modules/MPI/modules/MPI/ofed/gcc/hdf5".
Proof.
  split.
  - refine (proj1 (stacked_module_directory (py "/sw/modules") (py "MPI") [])
              (py "/sw/modules/MPI/ofed/gcc/hdf5") eq_refl).
  - refine (proj2 (stacked_module_directory (py "modules") (py "MPI")
                     (py "/ofed/gcc/hdf5")) _ _ eq_refl eq_refl eq_refl eq_refl);
      discriminate.
Defined.

(** ** What the pattern extracts *)

(** X5: every extracted name, whatever the content, is not empty, holds no
    double quote, and is the name of a text [depends_on(Q<name>Q)] of the
    content that stands at the start of the content or right after a
    newline, with nothing but whitespace before it. *)
Theorem extracted_name_is_anchored (content name : pystr) :
  In name (findall depends_on_re content) ->
  name <> [] /\ ~ In dquote name /\
  exists before ws after,
    content = before ++ ws ++ declaration name ++ after /\
    at_line_start (prev_after before None) = true /\
    forallb is_space ws = true.
Proof.
  intros Hin.
  destruct (findall_at_anchored (S (length content)) content None name
              (Nat.lt_succ_diag_r _) Hin)
    as [before [ws [after [Hc [Hb [Hws [Hq Hne]]]]]]].
  split; [exact Hne|]. split.
  - intros Hd. rewrite forallb_forall in Hq. specialize (Hq dquote Hd).
    discriminate.
  - exists before, ws, after. auto.
Qed.

Lemma extracted_name_is_anchored_witness :
  In (py "openmpi") (findall depends_on_re sample_module) /\
  py "openmpi" <> [] /\ ~ In dquote (py "openmpi").
Proof.
  assert (H : In (py "openmpi") (findall depends_on_re sample_module))
    by (vm_compute; right; now left).
  split; [exact H|].
  destruct (extracted_name_is_anchored sample_module (py "openmpi") H)
    as [Hne [Hq _]].
  split; assumption.
Defined.

(** X6: a content without any double quote declares nothing for the
    pattern; in particular a declaration written with single quotes is not
    seen. *)
Theorem no_double_quote_no_dependency (content : pystr) :
  ~ In dquote content -> findall depends_on_re content = [].
Proof.
  intros Hq. destruct (findall depends_on_re content) as [|name l] eqn:E;
    [reflexivity|].
  exfalso.
  destruct (findall_at_anchored (S (length content)) content None name
              (Nat.lt_succ_diag_r _))
    as [before [ws [after [Hc _]]]].
  { unfold findall in E. rewrite E. now left. }
  apply Hq. rewrite Hc. unfold declaration, depends_on_close.
  apply in_or_app. right. apply in_or_app. right.
  apply in_or_app. left. apply in_or_app. right.
  apply in_or_app. right. now left.
Qed.

Lemma no_double_quote_no_dependency_witness :
  findall depends_on_re (py "depends_on('gcc/12.2')") = [].
Proof.
  apply (no_double_quote_no_dependency (py "depends_on('gcc/12.2')")).
  vm_compute. intuition discriminate.
Defined.

Lemma count_occ_newline_app (a b : pystr) :
  count_occ N.eq_dec b newline <= count_occ N.eq_dec (a ++ b) newline.
Proof. rewrite count_occ_app. apply Nat.le_add_l. Qed.

Lemma findall_at_count :
  forall n s prev,
    length s < n ->
    length (findall_at depends_on_re prev s) <=
    (if at_line_start prev then 1 else 0) + count_occ N.eq_dec s newline.
Proof.
  induction n as [|n IH]; intros s prev Hn; [lia|].
  rewrite findall_at_step.
  destruct (match_decl prev s) as [[[g p] s']|] eqn:E.
  - pose proof (match_decl_shorter _ _ _ _ _ E) as Hlen.
    apply match_decl_inv in E as [Hp [Hs [_ [_ ->]]]].
    rewrite Hp. cbn [length].
    assert (Hs' : length s' < n) by lia.
    specialize (IH s' (Some 41%N) Hs').
    change (at_line_start (Some 41%N)) with false in IH.
    pose proof (count_occ_newline_app
                  (fst (span is_space s) ++ declaration g) s') as Hc.
    rewrite <- app_assoc, <- Hs in Hc.
    set (k := count_occ N.eq_dec s newline) in *.
    set (k' := count_occ N.eq_dec s' newline) in *.
    set (m := length (findall_at depends_on_re (Some 41%N) s')) in *.
    clearbody k k' m. cbv iota in IH. lia.
  - destruct s as [|c s]; cbn [advance length]; [apply Nat.le_0_l|].
    assert (Hs' : length s < n) by (simpl in Hn; lia).
    specialize (IH s (Some c) Hs').
    cbn [at_line_start] in IH. cbn [count_occ].
    set (m := length (findall_at depends_on_re (Some c) s)) in *.
    set (k := count_occ N.eq_dec s newline) in *.
    destruct (N.eq_dec c newline) as [->|Hc].
    + rewrite N.eqb_refl in IH. clearbody k m. cbv iota in IH.
      destruct (at_line_start prev); lia.
    + apply N.eqb_neq in Hc. rewrite Hc in IH. clearbody k m. cbv iota in IH.
      destruct (at_line_start prev); lia.
Qed.

(** X7: the pattern extracts at most one name for each line of the
    content, whatever the content. *)
Theorem at_most_one_name_per_line (content : pystr) :
  length (findall depends_on_re content) <= length (lines content).
Proof.
  unfold lines. rewrite length_split.
  apply (findall_at_count (S (length content)) content None). lia.
Qed.

Lemma join_cons_nil (sep x : pystr) (l : list pystr) :
  join sep (x :: l) = [] -> x = [].
Proof.
  destruct l; simpl; [trivial|]. intros H. now apply app_eq_nil in H as [Hx _].
Qed.

Lemma dependency_field_pair (a b : pystr) : dependency_field [a; b] = Some b.
Proof. reflexivity. Qed.

(** X8: the dependency field of the record of a file that was read is the
    empty string exactly when the pattern extracts nothing from the file. *)
Theorem dependency_field_empty_iff (pkg_name file text : pystr) :
  dependency_field (module_record pkg_name file text) = Some [] <->
  findall depends_on_re text = [].
Proof.
  unfold module_record.
  destruct (findall depends_on_re text) as [|name l] eqn:E.
  - split; reflexivity.
  - change (Nat.ltb 0 (length (name :: l))) with true. cbv iota.
    rewrite dependency_field_pair.
    split; [|discriminate]. intros H. exfalso.
    assert (Hj : join (py ", ") (name :: l) = []) by congruence.
    apply join_cons_nil in Hj.
    assert (Hx : In name (findall depends_on_re text)) by (rewrite E; now left).
    destruct (findall_at_anchored (S (length text)) text None name
                (Nat.lt_succ_diag_r _) Hx)
      as [_ [_ [_ [_ [_ [_ [_ Hne]]]]]]].
    contradiction.
Qed.

Lemma str_in_refl_app (k pre post : pystr) : str_in k (pre ++ k ++ post) = true.
Proof. apply str_in_spec. now exists pre, post. Qed.

Lemma str_in_join (sep x : pystr) (l : list pystr) :
  In x l -> str_in x (join sep l) = true.
Proof.
  induction l as [|y l IH]; intros Hin; [contradiction|].
  apply str_in_spec.
  destruct l as [|z l].
  - destruct Hin as [-> | []]. exists [], []. simpl. now rewrite app_nil_r.
  - rewrite join_cons by discriminate.
    destruct Hin as [-> | Hin].
    + now exists [], (sep ++ join sep (z :: l)).
    + apply IH, str_in_spec in Hin as [pre [post Hj]].
      exists (y ++ sep ++ pre), post. rewrite Hj.
      now rewrite <- !app_assoc.
Qed.

(** X9: a module is found by each of its dependencies: the group of the
    record of a file is kept by [Filter] for every name the pattern
    extracts from the file. *)
Theorem Filter_keeps_module_of_dependency (pkg_name file text name : pystr) :
  In name (findall depends_on_re text) ->
  Filter [[module_record pkg_name file text]] name =
  [[module_record pkg_name file text]].
Proof.
  intros Hin. unfold Filter. cbn [filter].
  assert (H : any_item name [module_record pkg_name file text] = true).
  { apply any_item_spec.
    exists (module_record pkg_name file text),
           (join (py ", ") (findall depends_on_re text)).
    split; [now left|]. split; [|now apply str_in_join].
    unfold module_record.
    destruct (findall depends_on_re text) as [|n l]; [contradiction|].
    right. now left. }
  now rewrite H.
Qed.

Lemma Filter_keeps_module_of_dependency_witness :
  Filter [[module_record (py "hdf5") (py "/m/hdf5/1.12.lua") sample_module]]
         (py "openmpi") =
  [[module_record (py "hdf5") (py "/m/hdf5/1.12.lua") sample_module]].
Proof.
  apply (Filter_keeps_module_of_dependency (py "hdf5") (py "/m/hdf5/1.12.lua")
           sample_module (py "openmpi")).
  vm_compute. right. now left.
Defined.

(** ** [Filter] with two keywords *)

Lemma str_in_trans (k1 k2 s : pystr) :
  str_in k1 k2 = true -> str_in k2 s = true -> str_in k1 s = true.
Proof.
  rewrite !str_in_spec. intros [a [b ->]] [pre [post ->]].
  exists (pre ++ a), (b ++ post). now rewrite <- !app_assoc.
Qed.

Lemma filter_filter_comm {A} (p q : A -> bool) (l : list A) :
  filter q (filter p l) = filter p (filter q l).
Proof.
  induction l as [|x l IH]; simpl; [reflexivity|].
  destruct (p x) eqn:Hp, (q x) eqn:Hq; simpl; rewrite ?Hp, ?Hq, IH; reflexivity.
Qed.

Lemma filter_filter_implies {A} (p q : A -> bool) (l : list A) :
  (forall x, q x = true -> p x = true) ->
  filter q (filter p l) = filter q l.
Proof.
  intros H. induction l as [|x l IH]; simpl; [reflexivity|].
  destruct (p x) eqn:Hp; simpl.
  - now rewrite IH.
  - destruct (q x) eqn:Hq; [|exact IH].
    rewrite (H x Hq) in Hp. discriminate.
Qed.

(** X10: filtering by two keywords one after the other gives the same
    groups in either order. *)
Theorem Filter_commutes (data : list group) (k1 k2 : pystr) :
  Filter (Filter data k1) k2 = Filter (Filter data k2) k1.
Proof. unfold Filter. apply filter_filter_comm. Qed.

(** X11: when a keyword occurs inside a longer one, filtering by the longer
    one alone gives what filtering by the shorter and then by the longer
    gives: every group kept for the longer keyword is kept for the
    shorter. *)
Theorem Filter_refines (data : list group) (k1 k2 : pystr) :
  str_in k1 k2 = true ->
  Filter (Filter data k1) k2 = Filter data k2 /\
  (forall g, In g (Filter data k2) -> In g (Filter data k1)).
Proof.
  intros Hk.
  assert (Himp : forall g, any_item k2 g = true -> any_item k1 g = true).
  { intros g Hg. apply any_item_spec in Hg as [r [item [Hr [Hi Hs]]]].
    apply any_item_spec. exists r, item. repeat split; trivial.
    now apply (str_in_trans k1 k2). }
  split.
  - unfold Filter. now apply filter_filter_implies.
  - intros g Hg. apply Filter_In in Hg as [Hd Ha]. apply Filter_In.
    split; [exact Hd | now apply Himp].
Qed.

Lemma Filter_refines_witness :
  Filter (Filter [openmpi_group; [[py "gcc/12.2"; py "binutils"]]] (py "mpi"))
         (py "openmpi") =
  Filter [openmpi_group; [[py "gcc/12.2"; py "binutils"]]] (py "openmpi").
Proof.
  apply (Filter_refines [openmpi_group; [[py "gcc/12.2"; py "binutils"]]]
           (py "mpi") (py "openmpi")).
  reflexivity.
Defined.

(** ** What the scan writes and how it ends *)

Lemma only_lines_refl (out : list event) : only_lines out out.
Proof. exists []. simpl. now rewrite app_nil_r. Qed.

Lemma only_lines_print (out : list event) (line : pystr) :
  only_lines out (out ++ [Print line]).
Proof. now exists [line]. Qed.

Lemma only_lines_trans (a b c : list event) :
  only_lines a b -> only_lines b c -> only_lines a c.
Proof.
  intros [l1 ->] [l2 ->]. exists (l1 ++ l2).
  now rewrite map_app, app_assoc.
Qed.

Lemma only_lines_Forall (P : event -> Prop) (out out' : list event) :
  (forall line, P (Print line)) ->
  only_lines out out' -> Forall P out -> Forall P out'.
Proof.
  intros HP [l ->] Hout. apply Forall_app. split; [exact Hout|].
  apply Forall_forall. intros e He. apply in_map_iff in He as [line [<- _]].
  apply HP.
Qed.

Lemma module_record_length (pkg_name file text : pystr) :
  length (module_record pkg_name file text) = 2.
Proof.
  unfold module_record.
  now destruct (Nat.ltb 0 (length (findall depends_on_re text))).
Qed.

Lemma module_files_spec (fs : filesystem) (pkg_name : pystr) :
  forall files output out,
    only_lines out (snd (module_files fs pkg_name files output out)) /\
    match fst (module_files fs pkg_name files output out) with
    | Ret g => exists recs, g = output ++ recs /\
                            forall r, In r recs -> length r = 2
    | Raise e => e = NameError /\
                 exists file, In file files /\ read fs file = FileNotFound
    | Exit _ => False
    end.
Proof.
  induction files as [|file files IH]; intros output out;
    cbn [module_files].
  - split; [apply only_lines_refl|]. exists []. split.
    + now rewrite app_nil_r.
    + intros r [].
  - destruct (read fs file) as [text| |msg] eqn:Hr.
    + destruct (IH (output ++ [module_record pkg_name file text]) out)
        as [Hl Ho].
      split; [exact Hl|].
      destruct (fst (module_files fs pkg_name files _ out)) as [g|code|e].
      * destruct Ho as [recs [-> Hrecs]].
        exists (module_record pkg_name file text :: recs). split.
        -- now rewrite <- app_assoc.
        -- intros r [<- | Hin]; [apply module_record_length | now apply Hrecs].
      * exact Ho.
      * destruct Ho as [He [f [Hf Hm]]]. split; [exact He|].
        exists f. split; [now right | exact Hm].
    + split; [apply only_lines_refl|]. split; [reflexivity|].
      exists file. split; [now left | exact Hr].
    + unfold bind, print.
      destruct (IH output (out ++ [Print (py "An error occurred: " ++ msg)]))
        as [Hl Ho].
      split.
      * eapply only_lines_trans; [apply only_lines_print | exact Hl].
      * destruct (fst (module_files fs pkg_name files output _)) as [g|code|e].
        -- exact Ho.
        -- exact Ho.
        -- destruct Ho as [He [f [Hf Hm]]]. split; [exact He|].
           exists f. split; [now right | exact Hm].
Qed.

Lemma get_module_dependency_spec (fs : filesystem) (path pkg_name : pystr)
    (out : list event) :
  only_lines out (snd (get_module_dependency fs path pkg_name out)) /\
  match fst (get_module_dependency fs path pkg_name out) with
  | Ret g => forall r, In r g -> length r = 2
  | Raise e => e = NameError /\ missing_file fs
  | Exit _ => False
  end.
Proof.
  unfold get_module_dependency.
  destruct (module_files_spec fs pkg_name
              (glob fs (os_path_join path [py "*.lua"])) [] out) as [Hl Ho].
  split; [exact Hl|].
  destruct (fst (module_files fs pkg_name _ [] out)) as [g|code|e].
  - destruct Ho as [recs [-> Hrecs]]. exact Hrecs.
  - exact Ho.
  - destruct Ho as [He [f [Hf Hm]]]. split; [exact He|].
    now exists (os_path_join path [py "*.lua"]), f.
Qed.

Lemma flat_modules_spec (fs : filesystem) (directory collection : pystr) :
  forall modules output out,
    only_lines out (snd (flat_modules fs directory collection modules output out)) /\
    match fst (flat_modules fs directory collection modules output out) with
    | Ret gs => exists new, gs = output ++ new /\
                            length new = length modules /\
                            forall g r, In g new -> In r g -> length r = 2
    | Raise e => e = NameError /\ missing_file fs
    | Exit _ => False
    end.
Proof.
  induction modules as [|module modules IH]; intros output out;
    cbn [flat_modules].
  - split; [apply only_lines_refl|]. exists []. split; [|split].
    + now rewrite app_nil_r.
    + reflexivity.
    + intros g r [].
  - unfold bind.
    destruct (get_module_dependency_spec fs
                (os_path_join directory [collection; module]) module out)
      as [Hl Ho].
    destruct (get_module_dependency fs _ module out) as [[y|code|e] o1];
      cbn [fst snd] in *.
    + destruct (IH (output ++ [y]) o1) as [Hl' Ho'].
      split; [eapply only_lines_trans; eassumption|].
      destruct (fst (flat_modules fs directory collection modules _ o1))
        as [gs|code|e].
      * destruct Ho' as [new [-> [Hlen Hnew]]].
        exists (y :: new). split; [now rewrite <- app_assoc|].
        split; [simpl; now rewrite Hlen|].
        intros g r [<- | Hg] Hr; [now apply Ho | now apply (Hnew g)].
      * exact Ho'.
      * exact Ho'.
    + contradiction.
    + split; [exact Hl | exact Ho].
Qed.

Lemma stacked_modules_spec (fs : filesystem) (directory collection : pystr)
    (decode : decoder) (d k : nat) :
  (forall segs o, length segs = d ->
     exists ctx name, decode segs o = (Ret (ctx, name), o) /\ length ctx = k) ->
  forall modules output out,
    (forall m, In m modules -> length (split slash m) = d) ->
    only_lines out
      (snd (stacked_modules fs directory collection decode modules output out)) /\
    match fst (stacked_modules fs directory collection decode modules output out) with
    | Ret gs => exists new, gs = output ++ new /\
                            forall g, In g new ->
                              g <> [] /\ forall r, In r g -> length r = k + 2
    | Raise e => e = NameError /\ missing_file fs
    | Exit _ => False
    end.
Proof.
  intros Hdec.
  induction modules as [|module modules IH]; intros output out Hd;
    cbn [stacked_modules].
  - split; [apply only_lines_refl|]. exists []. split.
    + now rewrite app_nil_r.
    + intros g [].
  - assert (Hrest : forall m, In m modules -> length (split slash m) = d)
      by (intros m Hm; apply Hd; now right).
    unfold bind.
    destruct (Hdec (split slash module) out (Hd module (or_introl eq_refl)))
      as [ctx [name [-> Hctx]]].
    cbn [fst snd].
    destruct (get_module_dependency_spec fs
                (os_path_join directory [collection; module]) name out)
      as [Hl Ho].
    destruct (get_module_dependency fs _ name out) as [[y|code|e] o1];
      cbn [fst snd] in *.
    + destruct (Nat.ltb 0 (length y)) eqn:Hy.
      * destruct (IH (output ++ [map (fun item => ctx ++ item) y]) o1 Hrest)
          as [Hl' Ho'].
        split; [eapply only_lines_trans; eassumption|].
        destruct (fst (stacked_modules fs directory collection decode modules _ o1))
          as [gs|code|e].
        -- destruct Ho' as [new [-> Hnew]].
           exists (map (fun item => ctx ++ item) y :: new).
           split; [now rewrite <- app_assoc|].
           intros g [<- | Hg]; [|now apply Hnew].
           split.
           ++ apply Nat.ltb_lt in Hy. destruct y; [simpl in Hy; lia | discriminate].
           ++ intros r Hr. apply in_map_iff in Hr as [item [<- Hi]].
              rewrite length_app, Hctx, (Ho item Hi). reflexivity.
        -- exact Ho'.
        -- exact Ho'.
      * destruct (IH output o1 Hrest) as [Hl' Ho'].
        split; [eapply only_lines_trans; eassumption | exact Ho'].
    + contradiction.
    + split; [exact Hl | exact Ho].
Qed.

Lemma decode_mpi_spec (segs : list pystr) (o : list event) :
  length segs = 7 ->
  exists ctx name, decode_mpi segs o = (Ret (ctx, name), o) /\ length ctx = 2.
Proof.
  destruct segs as [|a [|b [|c [|d [|e [|f [|g [|h t]]]]]]]]; try discriminate.
  intros _. now exists [e; f], g.
Qed.

Lemma decode_python_spec (segs : list pystr) (o : list event) :
  length segs = 6 ->
  exists ctx name, decode_python segs o = (Ret (ctx, name), o) /\ length ctx = 1.
Proof.
  destruct segs as [|a [|b [|c [|d [|e [|f [|g t]]]]]]]; try discriminate.
  intros _. now exists [join [slash] [d; e]], f.
Qed.

Lemma decode_compilers_spec (segs : list pystr) (o : list event) :
  length segs = 7 ->
  exists ctx name,
    decode_compilers segs o = (Ret (ctx, name), o) /\ length ctx = 1.
Proof.
  destruct segs as [|a [|b [|c [|d [|e [|f [|g [|h t]]]]]]]]; try discriminate.
  intros _. now exists [join [slash] [e; f]], g.
Qed.

(** What the three stacked layouts have in common. *)
Lemma stacked_layout (collection : pystr) :
  is_stacked collection = true ->
  exists d k,
    (d = 6 \/ d = 7) /\
    (forall modules, stacked_module_path_cleanup modules collection =
                     Ret (filter (depth_is d) modules)) /\
    (forall segs o, length segs = d ->
       exists ctx name, decoder_of collection segs o = (Ret (ctx, name), o) /\
                        length ctx = k) /\
    length (headers_of collection) = k + 2.
Proof.
  intros Hst. destruct (is_stacked_cases collection Hst) as [-> | [-> | ->]].
  - exists 6, 1. split; [now left|]. split; [reflexivity|].
    split; [exact decode_python_spec | reflexivity].
  - exists 7, 2. split; [now right|]. split; [reflexivity|].
    split; [exact decode_mpi_spec | reflexivity].
  - exists 7, 1. split; [now right|]. split; [reflexivity|].
    split; [exact decode_compilers_spec | reflexivity].
Qed.

Lemma headers_of_flat (collection : pystr) :
  is_stacked collection = false ->
  headers_of collection = [collection ++ py " Packages"; py "Dependency"].
Proof.
  intros Hst. destruct (is_stacked_false collection Hst) as [Hm [Hp Hc]].
  unfold headers_of. now rewrite Hm, Hp, Hc.
Qed.

(** The scan of a collection: it writes lines only; it ends normally, or
    with [NameError] for a missing file, or with [TypeError] for a flat
    collection that cannot be listed; the rows it gathers fit the header
    row; a stacked collection has no group without rows, a flat one has a
    group for each of its entries. *)
Lemma scan_spec (fs : filesystem) (directory collection : pystr)
    (out : list event) :
  only_lines out (snd (scan fs directory collection out)) /\
  match fst (scan fs directory collection out) with
  | Ret (Some gs) =>
      (forall g r, In g gs -> In r g ->
                   length r = length (headers_of collection)) /\
      (is_stacked collection = true -> forall g, In g gs -> g <> []) /\
      (is_stacked collection = false -> gs <> [])
  | Ret None => True
  | Raise e =>
      (e = NameError /\ missing_file fs) \/
      (e = TypeError /\ is_stacked collection = false /\
       exists msg,
         listdir fs (os_path_join directory [collection]) = ListError msg)
  | Exit _ => False
  end.
Proof.
  unfold scan. destruct (is_stacked collection) eqn:Hst.
  - destruct (stacked_layout collection Hst)
      as [d [k [_ [Hclean [Hdec Hhead]]]]].
    destruct (Nat.ltb 0 (length (stacked_get_module_names fs directory collection)));
      [|split; [apply only_lines_refl | exact I]].
    unfold bind, lift, ret. rewrite Hclean.
    destruct (stacked_modules_spec fs directory collection
                (decoder_of collection) d k Hdec
                (filter (depth_is d)
                   (stacked_get_module_names fs directory collection)) [] out)
      as [Hl Ho].
    { intros m Hm. apply filter_In in Hm as [_ Hm]. now apply depth_is_spec. }
    destruct (stacked_modules fs directory collection (decoder_of collection) _ [] out)
      as [[gs|code|e] o1]; cbn [fst snd] in *.
    + split; [exact Hl|]. destruct Ho as [new [-> Hnew]]. cbn [app].
      split; [|split].
      * intros g r Hg Hr. rewrite Hhead. now apply (Hnew g).
      * intros _ g Hg. now apply Hnew.
      * discriminate.
    + contradiction.
    + split; [exact Hl | now left].
  - unfold bind, get_module_names.
    destruct (listdir fs (os_path_join directory [collection]))
      as [names|msg] eqn:Hls; unfold bind, raise, lift, ret.
    + set (modules := filter _ names).
      destruct (Nat.ltb 0 (length modules)) eqn:Hlen;
        [|split; [apply only_lines_refl | exact I]].
      destruct (flat_modules_spec fs directory collection modules [] out)
        as [Hl Ho].
      destruct (flat_modules fs directory collection modules [] out)
        as [[gs|code|e] o1]; cbn [fst snd] in *.
      * split; [exact Hl|]. destruct Ho as [new [-> [Hn Hnew]]]. cbn [app].
        split; [|split].
        -- intros g r Hg Hr. rewrite (headers_of_flat collection Hst).
           now apply (Hnew g).
        -- discriminate.
        -- intros _ ->. apply Nat.ltb_lt in Hlen. simpl in Hn. lia.
      * contradiction.
      * split; [exact Hl | now left].
    + unfold print. cbn [fst snd]. split; [apply only_lines_print|].
      right. split; [reflexivity|]. split; [reflexivity|]. now exists msg.
Qed.

Lemma report_cases (collection : pystr) (headers : list pystr)
    (filter_ : bool) (keyword : pystr) (groups : list group)
    (out : list event) :
  let kept := if filter_ then Filter groups keyword else groups in
  (kept = [] /\
   report collection headers filter_ keyword groups out =
   (Ret tt, out ++ [Print (py "0 softwares found for " ++ collection)])) \/
  (kept <> [] /\
   report collection headers filter_ keyword groups out =
   (Ret tt, out ++ [Print [newline]; PrintTable (concat kept) headers])).
Proof.
  intros kept. unfold report. fold kept.
  destruct kept as [|g l].
  - left. now split.
  - right. split; [discriminate|].
    unfold bind, print, print_table. cbn [length Nat.ltb Nat.leb].
    now rewrite <- app_assoc.
Qed.

(** ** One collection, then all of them *)

Lemma main_collection_outcome (fs : filesystem) (directory : pystr)
    (filter_ : bool) (keyword collection : pystr) (out : list event) :
  match fst (main_collection fs directory filter_ keyword collection out) with
  | Ret _ => True
  | Exit _ => False
  | Raise NameError => missing_file fs
  | Raise TypeError =>
      is_stacked collection = false /\
      exists msg,
        listdir fs (os_path_join directory [collection]) = ListError msg
  | Raise IndexError => False
  end.
Proof.
  rewrite main_collection_scan.
  destruct (scan_spec fs directory collection out) as [_ Ho].
  destruct (scan fs directory collection out) as [[[gs|]|code|e] o];
    cbn [fst] in *.
  - destruct (report_cases collection (headers_of collection) filter_ keyword
                gs o) as [[_ ->] | [_ ->]]; exact I.
  - exact I.
  - contradiction.
  - destruct Ho as [[-> Hm] | [-> Ht]]; assumption.
Qed.

Lemma main_collection_fit (fs : filesystem) (directory : pystr)
    (filter_ : bool) (keyword collection : pystr) (out : list event) :
  Forall table_rows_fit out ->
  Forall table_rows_fit
    (snd (main_collection fs directory filter_ keyword collection out)).
Proof.
  intros Hout. rewrite main_collection_scan.
  destruct (scan_spec fs directory collection out) as [Hl Ho].
  assert (Ho1 : Forall table_rows_fit (snd (scan fs directory collection out)))
    by (apply (only_lines_Forall table_rows_fit out); [intros; exact I | | ];
        assumption).
  destruct (scan fs directory collection out) as [[[gs|]|code|e] o];
    cbn [fst snd] in *; try exact Ho1.
  destruct Ho as [Hfit _].
  destruct (report_cases collection (headers_of collection) filter_ keyword
              gs o) as [[_ ->] | [_ ->]]; cbn [snd];
    apply Forall_app; (split; [exact Ho1|]).
  - repeat constructor.
  - constructor; [exact I|]. constructor; [|constructor].
    intros r Hr. apply in_concat in Hr as [g [Hg Hr]].
    apply (Hfit g r); [|exact Hr].
    destruct filter_; [|exact Hg]. now apply Filter_In in Hg.
Qed.

Lemma main_collection_hit (fs : filesystem) (directory : pystr)
    (keyword collection : pystr) (out : list event) :
  Forall (table_has_hit keyword) out ->
  Forall (table_has_hit keyword)
    (snd (main_collection fs directory true keyword collection out)).
Proof.
  intros Hout. rewrite main_collection_scan.
  destruct (scan_spec fs directory collection out) as [Hl _].
  assert (Ho1 : Forall (table_has_hit keyword)
                  (snd (scan fs directory collection out)))
    by (apply (only_lines_Forall (table_has_hit keyword) out);
        [intros; exact I | | ]; assumption).
  destruct (scan fs directory collection out) as [[[gs|]|code|e] o];
    cbn [fst snd] in *; try exact Ho1.
  destruct (report_cases collection (headers_of collection) true keyword
              gs o) as [[_ ->] | [Hne ->]]; cbn [snd];
    apply Forall_app; (split; [exact Ho1|]).
  - repeat constructor.
  - constructor; [exact I|]. constructor; [|constructor].
    cbn [table_has_hit].
    destruct (Filter gs keyword) as [|g l] eqn:E; [contradiction|].
    assert (Hg : In g (Filter gs keyword)) by (rewrite E; now left).
    apply Filter_In in Hg as [_ Hany].
    apply any_item_spec in Hany as [r [item [Hr [Hi Hk]]]].
    exists r, item. split; [|now split].
    apply in_concat. exists g. split; [now left | exact Hr].
Qed.

Lemma for_each_Forall {A} (P : list event -> Prop) (body : A -> M unit) :
  (forall x out, P out -> P (snd (body x out))) ->
  forall l out, P out -> P (snd (for_each l body out)).
Proof.
  intros Hbody. induction l as [|x l IH]; intros out Hout;
    cbn [for_each]; [exact Hout|].
  unfold bind. specialize (Hbody x out Hout).
  destruct (body x out) as [[u|code|e] o]; cbn [snd] in *;
    [now apply IH | exact Hbody | exact Hbody].
Qed.

(** The loop ends normally, or as the first body that does not. *)
Lemma for_each_outcome {A} (body : A -> M unit) :
  forall l out,
    match fst (for_each l body out) with
    | Ret _ => True
    | o => exists x out1, In x l /\ fst (body x out1) = o
    end.
Proof.
  induction l as [|x l IH]; intros out; cbn [for_each]; [exact I|].
  unfold bind. destruct (body x out) as [[u|code|e] o] eqn:E; cbn [fst].
  - specialize (IH o).
    destruct (fst (for_each l body o)) as [u'|code|e]; [exact I| |];
      destruct IH as [y [out1 [Hy Hb]]]; exists y, out1;
      (split; [now right | exact Hb]).
  - exists x, out. split; [now left | now rewrite E].
  - exists x, out. split; [now left | now rewrite E].
Qed.

(** [main], unfolded once. *)
Lemma main_unfold (fs : filesystem) (directory keyword : pystr)
    (args_collection : option (list pystr)) (out : list event) :
  main fs directory args_collection keyword out =
  match listdir fs directory with
  | ListError msg => (Raise TypeError, out ++ [Print (py "Error: " ++ msg)])
  | Listed names =>
      let collections :=
        filter (fun col => negb (str_eqb col (py "Collections")))
          (filter (fun name => isdir fs (os_path_join directory [name]) &&
                               negb (str_eqb name (py ".git"))) names) in
      let body :=
        main_collection fs directory (Nat.ltb 0 (length keyword)) keyword in
      match args_collection with
      | Some requested =>
          if forallb (fun x => list_in x collections) requested
          then for_each requested body out
          else (Exit 1, out ++ [Print (py "Invalid Collection Name")])
      | None => for_each collections body out
      end
  end.
Proof.
  unfold main, gather_collections, bind.
  destruct (listdir fs directory) as [names|msg]; [|reflexivity].
  unfold ret. cbv zeta.
  destruct args_collection as [requested|]; [|reflexivity].
  now destruct (forallb _ requested).
Qed.

Lemma collections_are_directories (fs : filesystem) (directory : pystr)
    (names : list pystr) (x : pystr) :
  In x (filter (fun col => negb (str_eqb col (py "Collections")))
          (filter (fun name => isdir fs (os_path_join directory [name]) &&
                               negb (str_eqb name (py ".git"))) names)) ->
  In x names /\ isdir fs (os_path_join directory [x]) = true /\
  x <> py ".git" /\ x <> py "Collections".
Proof.
  intros H. apply filter_In in H as [H Hc]. apply filter_In in H as [Hn H].
  apply andb_true_iff in H as [Hd Hg].
  apply negb_true_iff, str_eqb_neq in Hc, Hg. auto.
Qed.

Lemma collections_are_directories_inv (fs : filesystem) (directory : pystr)
    (names : list pystr) (x : pystr) :
  In x names -> isdir fs (os_path_join directory [x]) = true ->
  x <> py ".git" -> x <> py "Collections" ->
  In x (filter (fun col => negb (str_eqb col (py "Collections")))
          (filter (fun name => isdir fs (os_path_join directory [name]) &&
                               negb (str_eqb name (py ".git"))) names)).
Proof.
  intros Hn Hd Hg Hc. apply filter_In. split.
  - apply filter_In. split; [exact Hn|]. rewrite Hd. simpl.
    now apply negb_true_iff, str_eqb_neq.
  - now apply negb_true_iff, str_eqb_neq.
Qed.

Lemma forallb_false {A} (f : A -> bool) (l : list A) :
  forallb f l = false -> exists x, In x l /\ f x = false.
Proof.
  induction l as [|x l IH]; simpl; [discriminate|].
  destruct (f x) eqn:Hx; simpl.
  - intros H. destruct (IH H) as [y [Hy Hf]]. exists y. auto.
  - intros _. exists x. auto.
Qed.

Lemma main_outcome_cases (fs : filesystem) (directory keyword : pystr)
    (args_collection : option (list pystr)) (out : list event) :
  match fst (main fs directory args_collection keyword out) with
  | Ret _ => True
  | Exit code =>
      code = 1%Z /\
      snd (main fs directory args_collection keyword out) =
        out ++ [Print (py "Invalid Collection Name")] /\
      exists names requested x,
        listdir fs directory = Listed names /\
        args_collection = Some requested /\
        In x requested /\
        ~ (In x names /\ isdir fs (os_path_join directory [x]) = true /\
           x <> py ".git" /\ x <> py "Collections")
  | Raise NameError => missing_file fs
  | Raise TypeError => unlistable fs directory
  | Raise IndexError => False
  end.
Proof.
  rewrite main_unfold.
  destruct (listdir fs directory) as [names|msg] eqn:Hls;
    [|left; now exists msg].
  cbv zeta.
  set (collections := filter _ (filter _ names)).
  set (body := main_collection fs directory _ keyword).
  assert (Hloop : forall l,
             (forall x, In x l -> In x collections) ->
             match fst (for_each l body out) with
             | Ret _ => True
             | Exit _ => False
             | Raise NameError => missing_file fs
             | Raise TypeError => unlistable fs directory
             | Raise IndexError => False
             end).
  { intros l Hl. pose proof (for_each_outcome body l out) as Hfe.
    destruct (fst (for_each l body out)) as [u|code|e]; [exact I| |].
    - destruct Hfe as [x [out1 [_ Hb]]].
      pose proof (main_collection_outcome fs directory
                    (Nat.ltb 0 (length keyword)) keyword x out1) as Hmc.
      fold body in Hmc. now rewrite Hb in Hmc.
    - destruct Hfe as [x [out1 [Hx Hb]]].
      pose proof (main_collection_outcome fs directory
                    (Nat.ltb 0 (length keyword)) keyword x out1) as Hmc.
      fold body in Hmc. rewrite Hb in Hmc.
      destruct e; [exact Hmc | | exact Hmc].
      destruct Hmc as [_ [msg Hmsg]]. right. exists x, msg.
      split; [|exact Hmsg].
      now apply (collections_are_directories fs directory names x), Hl. }
  destruct args_collection as [requested|].
  - destruct (forallb (fun x => list_in x collections) requested) eqn:Hall.
    + assert (Hreq : forall x, In x requested -> In x collections).
      { intros x Hx. rewrite forallb_forall in Hall.
        now apply list_in_spec, Hall. }
      specialize (Hloop requested Hreq).
      destruct (fst (for_each requested body out)) as [u|code|[]];
        solve [exact Hloop | contradiction].
    + cbn [fst snd]. split; [reflexivity|]. split; [reflexivity|].
      apply forallb_false in Hall as [x [Hx Hin]].
      exists names, requested, x. repeat split; trivial.
      intros [Hn [Hd [Hg Hc]]].
      assert (Hcol : list_in x collections = true)
        by (apply list_in_spec; now apply collections_are_directories_inv).
      congruence.
  - specialize (Hloop collections (fun x H => H)).
    destruct (fst (for_each collections body out)) as [u|code|[]];
      solve [exact Hloop | contradiction].
Qed.

(** ** Tables *)

(** X12: every table the program writes has rows of the length of its
    header row: two fields for a flat collection, three for Python and
    Compilers, four for MPI. *)
Theorem main_tables_fit (fs : filesystem) (directory keyword : pystr)
    (args_collection : option (list pystr)) (out : list event) :
  Forall table_rows_fit out ->
  Forall table_rows_fit (snd (main fs directory args_collection keyword out)).
Proof.
  intros Hout. rewrite main_unfold.
  assert (Hline : forall line, Forall table_rows_fit (out ++ [Print line])).
  { intros line. apply Forall_app. split; [exact Hout|]. repeat constructor. }
  destruct (listdir fs directory) as [names|msg]; [|apply Hline].
  cbv zeta.
  assert (Hloop : forall l,
             Forall table_rows_fit
               (snd (for_each l
                       (main_collection fs directory
                          (Nat.ltb 0 (length keyword)) keyword) out))).
  { intros l. apply (for_each_Forall (Forall table_rows_fit)); [|exact Hout].
    intros x o. apply main_collection_fit. }
  destruct args_collection as [requested|]; [|apply Hloop].
  destruct (forallb _ requested); [apply Hloop | apply Hline].
Qed.

Lemma main_tables_fit_witness :
  Forall table_rows_fit
    (snd (main fs_unreadable (py "/sw/modules") None [] [])).
Proof.
  apply (main_tables_fit fs_unreadable (py "/sw/modules") [] None []).
  constructor.
Defined.

(** X13: with a keyword, no table is written without a hit: every table
    has a row with a field that contains the keyword. *)
Theorem main_filtered_tables_hit (fs : filesystem) (directory keyword : pystr)
    (args_collection : option (list pystr)) (out : list event) :
  keyword <> [] ->
  Forall (table_has_hit keyword) out ->
  Forall (table_has_hit keyword)
    (snd (main fs directory args_collection keyword out)).
Proof.
  intros Hk Hout. rewrite main_unfold.
  assert (Hline : forall line,
             Forall (table_has_hit keyword) (out ++ [Print line])).
  { intros line. apply Forall_app. split; [exact Hout|]. repeat constructor. }
  destruct (listdir fs directory) as [names|msg]; [|apply Hline].
  cbv zeta.
  assert (Hf : Nat.ltb 0 (length keyword) = true)
    by (destruct keyword; [contradiction | reflexivity]).
  rewrite Hf.
  assert (Hloop : forall l,
             Forall (table_has_hit keyword)
               (snd (for_each l (main_collection fs directory true keyword) out))).
  { intros l. apply (for_each_Forall (Forall (table_has_hit keyword)));
      [|exact Hout].
    intros x o. apply main_collection_hit. }
  destruct args_collection as [requested|]; [|apply Hloop].
  destruct (forallb _ requested); [apply Hloop | apply Hline].
Qed.

Lemma main_filtered_tables_hit_witness :
  Forall (table_has_hit (py "mpi"))
    (snd (main fs_openmpi (py "/sw/modules") None (py "mpi") [])).
Proof.
  apply (main_filtered_tables_hit fs_openmpi (py "/sw/modules") (py "mpi") None []).
  - discriminate.
  - constructor.
Defined.

(** ** The depth of the root *)

Lemma filter_none {A} (f : A -> bool) (l : list A) :
  (forall x, In x l -> f x = false) -> filter f l = [].
Proof.
  induction l as [|x l IH]; intros H; simpl; [reflexivity|].
  rewrite (H x (or_introl eq_refl)). apply IH. intros y Hy. apply H. now right.
Qed.

Lemma split_prefix_length (top p : pystr) :
  startswith p top = true ->
  length (split slash top) <= length (split slash p).
Proof.
  intros H. apply startswith_spec in H as [post ->].
  rewrite !length_split, count_occ_app. apply le_n_S, Nat.le_add_r.
Qed.

(** X15: the depths 6 and 7 count the segments of the whole walked path,
    those of the root included.  When the path of a stacked collection has
    more than seven segments itself, no path below it is kept, and the
    collection is reported as [0 softwares found], whatever it holds. *)
Theorem deep_root_finds_nothing
    (fs : filesystem) (directory keyword collection : pystr)
    (filter_ : bool) (out : list event) :
  is_stacked collection = true ->
  walk fs (os_path_join directory [collection]) <> [] ->
  (forall p, In p (walk fs (os_path_join directory [collection])) ->
             startswith p (os_path_join directory [collection]) = true) ->
  7 < length (split slash (os_path_join directory [collection])) ->
  main_collection fs directory filter_ keyword collection out =
  (Ret tt, out ++ [Print (py "0 softwares found for " ++ collection)]).
Proof.
  intros Hst Hw Hpre Hdeep. rewrite main_collection_scan.
  assert (Hscan : scan fs directory collection out = (Ret (Some []), out)).
  { unfold scan. rewrite Hst. unfold stacked_get_module_names.
    destruct (walk fs (os_path_join directory [collection])) as [|p0 ps] eqn:Ew;
      [contradiction|].
    cbn [length Nat.ltb Nat.leb].
    destruct (stacked_layout collection Hst) as [d [k [Hd [Hclean _]]]].
    unfold bind, lift, ret. rewrite Hclean.
    rewrite filter_none; [reflexivity|].
    intros p Hp. unfold depth_is. apply Nat.eqb_neq.
    pose proof (split_prefix_length _ p (Hpre p Hp)) as Hle.
    destruct Hd as [-> | ->]; lia. }
  rewrite Hscan. unfold report.
  now destruct filter_.
Qed.

Lemma deep_root_finds_nothing_witness :
  main_collection fs_deep (py "/opt/apps/lmod/site/modulefiles/v1") false []
    (py "MPI") [] =
  (Ret tt, [Print (py "0 softwares found for MPI")]).
Proof.
  refine (deep_root_finds_nothing fs_deep (py "/opt/apps/lmod/site/modulefiles/v1")
            [] (py "MPI") false [] eq_refl _ _ _).
  - discriminate.
  - intros p Hp. vm_compute in Hp.
    destruct Hp as [<- | [<- | [<- | [<- | []]]]]; reflexivity.
  - vm_compute. lia.
Defined.

(** ** How a run ends *)

(** X16: the causes of the failures the program raises itself.  A run that
    leaves by [sys.exit] does so with status 1 right after the one line
    [Invalid Collection Name], for a requested name that is not a listed
    directory of the root or is [.git] or [Collections] (the [sys.exit(1)]
    of [stacked_module_path_cleanup] is out of reach of [main]); a run that
    ends by [NameError] met a module file that [glob] returned and that is
    missing; a run that ends by [TypeError] met a root or a collection
    directory that cannot be listed; no run ends by [IndexError]: the
    segments that [stacked_case] indexes are there. *)
Theorem main_outcome (fs : filesystem) (directory keyword : pystr)
    (args_collection : option (list pystr)) (out : list event) :
  match fst (main fs directory args_collection keyword out) with
  | Ret _ => True
  | Exit code =>
      code = 1%Z /\
      snd (main fs directory args_collection keyword out) =
        out ++ [Print (py "Invalid Collection Name")] /\
      exists names requested x,
        listdir fs directory = Listed names /\
        args_collection = Some requested /\
        In x requested /\
        ~ (In x names /\ isdir fs (os_path_join directory [x]) = true /\
           x <> py ".git" /\ x <> py "Collections")
  | Raise NameError => missing_file fs
  | Raise TypeError => unlistable fs directory
  | Raise IndexError => False
  end.
Proof. apply main_outcome_cases. Qed.

(** X17: when the root and every directory can be listed, no module file
    is missing, and the requested names (if any) are listed directories
    of the root other than [.git] and [Collections], the run takes none of
    the failure paths of the program: it does not leave by [sys.exit], and
    it raises neither [NameError] nor [TypeError] nor [IndexError]. *)
Theorem main_takes_no_failure_path (fs : filesystem) (directory keyword : pystr)
    (args_collection : option (list pystr)) (names : list pystr)
    (out : list event) :
  listdir fs directory = Listed names ->
  (forall p, isdir fs p = true -> exists l, listdir fs p = Listed l) ->
  ~ missing_file fs ->
  (forall requested x,
     args_collection = Some requested -> In x requested ->
     In x names /\ isdir fs (os_path_join directory [x]) = true /\
     x <> py ".git" /\ x <> py "Collections") ->
  (forall code,
     fst (main fs directory args_collection keyword out) <> Exit code) /\
  (forall e,
     fst (main fs directory args_collection keyword out) <> Raise e).
Proof.
  intros Hls Hdirs Hfiles Hreq.
  pose proof (main_outcome_cases fs directory keyword args_collection out) as H.
  destruct (main fs directory args_collection keyword out) as [[[]|code|e] o];
    cbn [fst snd] in *.
  - split; discriminate.
  - exfalso. destruct H as [_ [_ [names' [requested [x [Hls' [Ha [Hx Hbad]]]]]]]].
    rewrite Hls in Hls'. injection Hls' as <-.
    apply Hbad. now apply (Hreq requested).
  - exfalso. destruct e; [contradiction | | contradiction].
    destruct H as [[msg Hm] | [c [msg [Hd Hm]]]].
    + congruence.
    + destruct (Hdirs _ Hd) as [l Hl]. congruence.
Qed.

Lemma lookup_In {A} (table : list (pystr * A)) (k : pystr) (v : A) :
  lookup table k = Some v -> In (k, v) table.
Proof.
  induction table as [|[k' v'] table IH]; simpl; [discriminate|].
  destruct (str_eqb k k') eqn:E.
  - intros [= ->]. apply str_eqb_eq in E. subst. now left.
  - intros H. right. now apply IH.
Qed.

Lemma tree_fs_listable (t : tree) (p : pystr) :
  isdir (tree_fs t) p = true -> exists l, listdir (tree_fs t) p = Listed l.
Proof.
  simpl. destruct (lookup (tree_dirs t) p) as [l|]; [|discriminate].
  intros _. now exists l.
Qed.

Lemma tree_complete_no_missing (t : tree) :
  tree_complete t = true -> ~ missing_file (tree_fs t).
Proof.
  intros Hc [pattern [file [Hin Hread]]]. simpl in Hin, Hread.
  destruct (strip_suffix (py "/*.lua") pattern) as [dir|]; [|contradiction].
  destruct (lookup (tree_dirs t) dir) as [names|] eqn:El; [|contradiction].
  apply lookup_In in El.
  apply in_map_iff in Hin as [n [<- Hn]].
  unfold tree_complete in Hc. rewrite forallb_forall in Hc.
  specialize (Hc (dir, names) El). cbn [fst snd] in Hc.
  rewrite forallb_forall in Hc. specialize (Hc n Hn).
  change (dir ++ [slash] ++ n) with (dir ++ slash :: n) in Hc.
  destruct (lookup (tree_files t) (dir ++ slash :: n)) as [[text| |msg]|];
    discriminate.
Qed.

Lemma main_takes_no_failure_path_witness :
  (forall code,
     fst (main (tree_fs tree_unreadable) (py "/sw/modules")
            (Some [py "Apps"]) [] []) <> Exit code) /\
  (forall e,
     fst (main (tree_fs tree_unreadable) (py "/sw/modules")
            (Some [py "Apps"]) [] []) <> Raise e).
Proof.
  refine (main_takes_no_failure_path (tree_fs tree_unreadable) (py "/sw/modules") []
            (Some [py "Apps"]) [py "Apps"] [] eq_refl
            (tree_fs_listable tree_unreadable)
            (tree_complete_no_missing tree_unreadable eq_refl) _).
  intros requested x [= <-] [<- | []].
  repeat split; try discriminate. now left.
Defined.

(** X18: when the root directory cannot be listed, the run writes the line
    [Error: <message>] and ends by [TypeError], whatever the arguments. *)
Theorem main_unlistable_root (fs : filesystem) (directory keyword msg : pystr)
    (args_collection : option (list pystr)) (out : list event) :
  listdir fs directory = ListError msg ->
  main fs directory args_collection keyword out =
  (Raise TypeError, out ++ [Print (py "Error: " ++ msg)]).
Proof. intros H. rewrite main_unfold. now rewrite H. Qed.

Lemma main_unlistable_root_witness :
  main fs_mpi (py "/nowhere") None [] [] =
  (Raise TypeError, [Print (py "Error: [Errno 2] No such file or directory")]).
Proof.
  exact (main_unlistable_root fs_mpi (py "/nowhere") []
           (py "[Errno 2] No such file or directory") None [] eq_refl).
Defined.

(** X19: a flat collection that cannot be listed ends the loop over the
    collections: the line [Error: <message>] is written, the run ends by
    [TypeError], and the collections after it are not looked at. *)
Theorem unlistable_collection_ends_run
    (fs : filesystem) (directory keyword collection msg : pystr)
    (filter_ : bool) (others : list pystr) (out : list event) :
  is_stacked collection = false ->
  listdir fs (os_path_join directory [collection]) = ListError msg ->
  for_each (collection :: others)
    (main_collection fs directory filter_ keyword) out =
  (Raise TypeError, out ++ [Print (py "Error: " ++ msg)]).
Proof.
  intros Hst Hls. cbn [for_each]. unfold bind at 1.
  unfold main_collection. rewrite Hst. cbn [negb].
  unfold bind, get_module_names. now rewrite Hls.
Qed.

Lemma unlistable_collection_ends_run_witness :
  for_each [py "Apps"; py "Tools"]
    (main_collection fs_locked (py "/sw/modules") false []) [] =
    (Raise TypeError, [Print (py "Error: [Errno 13] Permission denied")]) /\
  main fs_locked (py "/sw/modules") None [] [] =
    (Raise TypeError, [Print (py "Error: [Errno 13] Permission denied")]).
Proof.
  split; [|reflexivity].
  exact (unlistable_collection_ends_run fs_locked (py "/sw/modules") []
           (py "Apps") (py "[Errno 13] Permission denied") false [py "Tools"] []
           eq_refl eq_refl).
Defined.

(** X20: once the root directory has been listed, the names [Collections]
    and [.git] are not accepted with [--collection], even when the root has
    directories of these names: the run writes [Invalid Collection Name]
    and leaves by [sys.exit(1)]. *)
Theorem reserved_names_rejected (fs : filesystem) (directory keyword : pystr)
    (requested names : list pystr) (out : list event) :
  listdir fs directory = Listed names ->
  In (py "Collections") requested \/ In (py ".git") requested ->
  main fs directory (Some requested) keyword out =
  (Exit 1, out ++ [Print (py "Invalid Collection Name")]).
Proof.
  intros Hls Hres. rewrite main_unfold, Hls. cbv zeta.
  destruct (forallb _ requested) eqn:Hall; [exfalso | reflexivity].
  rewrite forallb_forall in Hall.
  destruct Hres as [Hin | Hin]; specialize (Hall _ Hin);
    apply list_in_spec, collections_are_directories in Hall
      as [_ [_ [Hg Hc]]]; congruence.
Qed.

Lemma reserved_names_rejected_witness :
  isdir fs_reserved (py "/sw/modules/Collections") = true /\
  main fs_reserved (py "/sw/modules") (Some [py "Apps"; py "Collections"]) [] [] =
  (Exit 1, [Print (py "Invalid Collection Name")]).
Proof.
  split; [reflexivity|].
  refine (reserved_names_rejected fs_reserved (py "/sw/modules") []
            [py "Apps"; py "Collections"] _ [] eq_refl _).
  left. right. now left.
Defined.

(** ** Decoding a walked path *)

Lemma split_path4 (root collection a b : pystr) :
  ~ In slash collection -> ~ In slash a -> ~ In slash b ->
  split slash (root ++ [slash] ++ collection ++ [slash] ++ a ++ [slash] ++ b) =
  split slash root ++ [collection; a; b].
Proof.
  intros Hc Ha Hb. cbn [app].
  rewrite split_app, (split_app_sep slash collection _ Hc),
    (split_app_sep slash a _ Ha), (split_no_sep_id slash b Hb).
  reflexivity.
Qed.

Lemma split_path5 (root collection a b c : pystr) :
  ~ In slash collection -> ~ In slash a -> ~ In slash b -> ~ In slash c ->
  split slash (root ++ [slash] ++ collection ++ [slash] ++ a ++ [slash] ++ b
                 ++ [slash] ++ c) =
  split slash root ++ [collection; a; b; c].
Proof.
  intros Hc Ha Hb Hc'. cbn [app].
  rewrite split_app, (split_app_sep slash collection _ Hc),
    (split_app_sep slash a _ Ha), (split_app_sep slash b _ Hb),
    (split_no_sep_id slash c Hc').
  reflexivity.
Qed.

(** X21: what the context columns hold under a root of three segments
    (as [/sw/modules], the default).  For MPI, [root/MPI/<v>/<c>/<p>] gives
    the fields [<v>] and [<c>] and the package [<p>]; for Compilers,
    [root/Compilers/<v>/<c>/<p>] gives the one field [<v>/<c>]; for Python,
    [root/Python/<v>/<p>] gives the one field [Python/<v>]: the slice
    starts at the segment of the collection itself. *)
Theorem decode_walked_path (root collection v c p : pystr)
    (out : list event) :
  length (split slash root) = 3 ->
  ~ In slash collection -> ~ In slash v -> ~ In slash c -> ~ In slash p ->
  decode_mpi
    (split slash (root ++ [slash] ++ collection ++ [slash] ++ v ++ [slash] ++ c
                    ++ [slash] ++ p)) out =
    (Ret ([v; c], p), out) /\
  decode_compilers
    (split slash (root ++ [slash] ++ collection ++ [slash] ++ v ++ [slash] ++ c
                    ++ [slash] ++ p)) out =
    (Ret ([v ++ [slash] ++ c], p), out) /\
  decode_python
    (split slash (root ++ [slash] ++ collection ++ [slash] ++ v ++ [slash] ++ p))
    out =
    (Ret ([collection ++ [slash] ++ v], p), out).
Proof.
  intros Hroot Hcol Hv Hc Hp.
  rewrite split_path5 by assumption. rewrite split_path4 by assumption.
  destruct (split slash root) as [|s0 [|s1 [|s2 [|s3 t]]]]; try discriminate.
  repeat split.
Qed.

Lemma decode_walked_path_witness :
  decode_mpi (split slash (py "/sw/modules/MPI/ofed/gcc/hdf5")) [] =
    (Ret ([py "ofed"; py "gcc"], py "hdf5"), []) /\
  decode_compilers (split slash (py "/sw/modules/MPI/ofed/gcc/hdf5")) [] =
    (Ret ([py "ofed/gcc"], py "hdf5"), []) /\
  decode_python (split slash (py "/sw/modules/MPI/ofed/hdf5")) [] =
    (Ret ([py "MPI/ofed"], py "hdf5"), []).
Proof.
  refine (decode_walked_path (py "/sw/modules") (py "MPI") (py "ofed")
            (py "gcc") (py "hdf5") [] eq_refl _ _ _ _);
    vm_compute; intuition discriminate.
Defined.

(** ** [Filter] with the empty keyword *)

(** X22: the empty keyword is in every string, so [Filter] with it keeps
    exactly the groups that have a record with at least one field. *)
Theorem Filter_empty_keyword (data : list group) (g : group) :
  In g (Filter data []) <->
  In g data /\ exists r, In r g /\ r <> [].
Proof.
  rewrite Filter_In, any_item_spec. split.
  - intros [Hg [r [item [Hr [Hi _]]]]]. split; [exact Hg|].
    exists r. split; [exact Hr|]. intros ->. contradiction.
  - intros [Hg [r [Hr Hne]]]. split; [exact Hg|].
    destruct r as [|item r]; [contradiction|].
    exists (item :: r), item. split; [exact Hr|].
    split; [now left | apply str_in_empty].
Qed.

(** ** The records of a module directory *)

(** X23: when none of the files that match is missing,
    [get_module_dependency] returns one record for each file that is read,
    in the order of [glob], and writes one line [An error occurred: ...]
    for each file that cannot be read, and nothing else. *)
Theorem get_module_dependency_records
    (fs : filesystem) (path pkg_name : pystr) (out : list event) :
  (forall file, In file (glob fs (os_path_join path [py "*.lua"])) ->
                read fs file <> FileNotFound) ->
  get_module_dependency fs path pkg_name out =
  (Ret (flat_map (fun file =>
                    match read fs file with
                    | Content text => [module_record pkg_name file text]
                    | _ => []
                    end)
          (glob fs (os_path_join path [py "*.lua"]))),
   out ++
   flat_map (fun file =>
               match read fs file with
               | ReadError msg => [Print (py "An error occurred: " ++ msg)]
               | _ => []
               end)
     (glob fs (os_path_join path [py "*.lua"]))).
Proof.
  intros H. unfold get_module_dependency.
  now rewrite module_files_no_missing.
Qed.

Lemma get_module_dependency_records_witness :
  get_module_dependency fs_unreadable (py "/sw/modules/Apps/gcc") (py "gcc") [] =
  (Ret [[py "gcc/11.4"; []]; [py "gcc/13.1"; py "binutils"]],
   [Print (py "An error occurred: [Errno 13] Permission denied")]).
Proof.
  refine (get_module_dependency_records fs_unreadable
            (py "/sw/modules/Apps/gcc") (py "gcc") [] _).
  intros file Hf. vm_compute in Hf.
  destruct Hf as [<- | [<- | [<- | []]]]; discriminate.
Defined.
